(** * EC2 runner provisioning script ([.github/actions/ec2-runners/aws.py])

    A shallow embedding of the script and the properties of its two
    actions, [start] and [stop].  The script talks to the process environment, to
    the provider SDK when it builds its client, to the source-control
    host's REST API and to the cloud provider's EC2 API; they are gathered
    in a [world] record, and
    the script is a computation that reads the world, appends to a trace of
    the effects it performs and either returns or raises. *)

From Stdlib Require Import ZArith NArith List Ascii String Lia.
From stdpp Require Import base gmap strings pretty.

Local Open Scope string_scope.
Local Open Scope list_scope.

(** ** Python strings *)

Module Py.

(** The double quote and the line feed, as one-character strings. *)
Definition dq : string := String "034"%char EmptyString.
Definition nl : string := String "010"%char EmptyString.

(** [s.startswith(p)]. *)
Fixpoint startswith (p s : string) : bool :=
  match p, s with
  | EmptyString, _ => true
  | String a p', String b s' => if Ascii.eqb a b then startswith p' s' else false
  | String _ _, EmptyString => false
  end.

(** [needle in hay] on strings: [needle] occurs at some offset of [hay]. *)
Fixpoint py_in (needle hay : string) : bool :=
  if startswith needle hay then true
  else match hay with
       | EmptyString => false
       | String _ hay' => py_in needle hay'
       end.

(** [s.split(sep)] for a separator of one character: the pieces between the
    occurrences of [sep], in order; never the empty list. *)
Fixpoint split (sep : ascii) (s : string) : list string :=
  match s with
  | EmptyString => [EmptyString]
  | String c s' =>
      if Ascii.eqb c sep then EmptyString :: split sep s'
      else match split sep s' with
           | piece :: pieces => String c piece :: pieces
           | [] => [String c EmptyString]
           end
  end.

(** [str.strip()] removes the white-space characters at both ends.  A
    string here holds the UTF-8 bytes of the Python text, so a white-space
    character is a sequence of one, two or three bytes: U+0009 to U+000D,
    U+001C to U+0020; U+0085 and U+00A0; U+1680, U+2000 to U+200A, U+2028,
    U+2029, U+202F, U+205F and U+3000. *)
Definition code (c : ascii) : N := N_of_ascii c.

Definition space1 (a : ascii) : bool :=
  ((9 <=? code a) && (code a <=? 13) || (28 <=? code a) && (code a <=? 32))%N.

Definition space2 (a b : ascii) : bool :=
  ((code a =? 194) && ((code b =? 133) || (code b =? 160)))%N.

Definition space3 (a b c : ascii) : bool :=
  ((code a =? 225) && (code b =? 154) && (code c =? 128)
   || (code a =? 226) && (code b =? 128)
      && ((128 <=? code c) && (code c <=? 138)
          || (code c =? 168) || (code c =? 169) || (code c =? 175))
   || (code a =? 226) && (code b =? 129) && (code c =? 159)
   || (code a =? 227) && (code b =? 128) && (code c =? 128))%N.

Fixpoint lstrip (s : string) : string :=
  match s with
  | EmptyString => EmptyString
  | String a s1 =>
      if space1 a then lstrip s1
      else match s1 with
           | EmptyString => s
           | String b s2 =>
               if space2 a b then lstrip s2
               else match s2 with
                    | EmptyString => s
                    | String c s3 => if space3 a b c then lstrip s3 else s
                    end
           end
  end.

(** [s] is empty or white space only. *)
Definition all_space (s : string) : bool :=
  match lstrip s with
  | EmptyString => true
  | String _ _ => false
  end.

(** The text up to the first place from which only white space follows. *)
Fixpoint rstrip (s : string) : string :=
  match s with
  | EmptyString => EmptyString
  | String a s1 => if all_space s then EmptyString else String a (rstrip s1)
  end.

Definition strip (s : string) : string := rstrip (lstrip s).

(** The property the substring test decides. *)
Definition Contains (hay needle : string) : Prop :=
  exists pre post, hay = pre +:+ needle +:+ post.

(** No occurrence of the character [c] in [s]. *)
Fixpoint lacks (c : ascii) (s : string) : Prop :=
  match s with
  | EmptyString => True
  | String a s' => a <> c /\ lacks c s'
  end.

End Py.

(** ** [uuid.UUID.__str__]

    A UUID is a 128-bit integer; its text is the 32 lower-case hexadecimal
    digits of that integer, cut 8-4-4-4-12 and joined by dashes. *)

Definition hex_char (d : N) : ascii :=
  match d with
  | 0%N => "0" | 1%N => "1" | 2%N => "2" | 3%N => "3"
  | 4%N => "4" | 5%N => "5" | 6%N => "6" | 7%N => "7"
  | 8%N => "8" | 9%N => "9" | 10%N => "a" | 11%N => "b"
  | 12%N => "c" | 13%N => "d" | 14%N => "e" | _ => "f"
  end%char.

(** The [k] low-order hexadecimal digits of [n], most significant first,
    in front of [acc] (['%032x' % n] for [k = 32] and [n < 2^128]). *)
Fixpoint hex_digits (k : nat) (n : N) (acc : string) : string :=
  match k with
  | O => acc
  | S k' => hex_digits k' (n / 16)%N (String (hex_char (n mod 16)%N) acc)
  end.

Definition uuid_str (n : N) : string :=
  let hex := hex_digits 32 n EmptyString in
  substring 0 8 hex +:+ "-" +:+ substring 8 4 hex +:+ "-" +:+
  substring 12 4 hex +:+ "-" +:+ substring 16 4 hex +:+ "-" +:+
  substring 20 12 hex.

(** ** Data exchanged with the outside *)

(** The keyword arguments of [ec2client.run_instances]. *)
Record ebs := {
  DeleteOnTermination : bool;
  VolumeSize : Z;
  VolumeType : string }.

Record block_device_mapping := {
  DeviceName : string;
  Ebs : ebs }.

Record tag := {
  Key : string;
  Value : string }.

Record tag_specification := {
  ResourceType : string;
  Tags : list tag }.

Record run_instances_request := {
  BlockDeviceMappings : list block_device_mapping;
  ImageId : string;
  InstanceType : string;
  MaxCount : Z;
  MinCount : Z;
  MonitoringEnabled : bool;
  SecurityGroupIds : list string;
  SubnetId : string;
  TagSpecifications : list tag_specification;
  UserData : string }.

(** What the provider reports back: an instance, a reservation (the shape
    of the [run_instances] response and of each entry of a
    [describe_instances] response). *)
Record instance := {
  InstanceId : string;
  PrivateIpAddress : string }.

Record reservation := {
  Instances : list instance }.

Record describe_response := {
  Reservations : list reservation }.

Record filter := {
  Name : string;
  Values : list string }.

(** A Python value as the script uses it: a [str], or a value of another
    type together with the text [str()] gives for it. *)
Inductive pyobj :=
| PyStr (s : string)
| PyOther (text : string).

Definition py_str (v : pyobj) : string :=
  match v with
  | PyStr s => s
  | PyOther text => text
  end.

(** A decoded JSON document: an object (a [dict]), or anything else (a
    list, a string, a number, [None]), which cannot be subscripted by a
    string. *)
Inductive json_value :=
| JObject (d : gmap string pyobj)
| JNonObject.

(** Exceptions: the provider SDK's [ClientError] and [SystemExit] are told
    apart by the script; every other class is [OtherError], with its class
    name.  [text] is what [str(e)] gives. *)
Inductive exn :=
| ClientError (text : string)
| SystemExit (code : Z)
| OtherError (class text : string).

Definition str_exn (e : exn) : string :=
  match e with
  | ClientError text => text
  | SystemExit code => pretty code
  | OtherError _ text => text
  end.

(** A [requests.Response]: [r.json()] raises or gives the decoded body. *)
Record response := {
  json : exn + json_value }.

(** What [print] is given. *)
Inductive printed :=
| PStr (s : string)
| PList (l : list string).

(** The effects of the script, in the order they happen. *)
Inductive event :=
| EvPost (url : string) (headers : list (string * string))
| EvRunInstances (req : run_instances_request)
| EvDescribeInstances (filters : list filter)
| EvTerminateInstances (ids : list string) (dry_run : bool)
| EvPrint (p : printed)
| EvSleep (seconds : Z).

(** The outside of one invocation: the environment variables, whether
    [boto3.client('ec2', region_name=r)] builds a client for the region [r]
    or raises (it sends nothing), the integer of the UUID that
    [uuid.uuid1()] generates, and how the two remote services answer each
    request.  No two requests of one invocation are
    equal, so answers that are functions of the request lose nothing. *)
Record world := {
  environ : gmap string string;
  boto3_client : string -> exn + unit;
  uuid1 : N;
  requests_post : string -> list (string * string) -> exn + response;
  ec2_run_instances : run_instances_request -> exn + reservation;
  ec2_describe_instances : list filter -> exn + describe_response;
  ec2_terminate_instances : list string -> bool -> exn + unit }.

(** ** Computations *)

Inductive outcome (A : Type) :=
| Returned (a : A)
| Raised (e : exn).
Arguments Returned {A} a.
Arguments Raised {A} e.

Definition M (A : Type) : Type :=
  world -> list event -> list event * outcome A.

#[global] Instance M_ret : MRet M :=
  fun A a _ t => (t, Returned a).

#[global] Instance M_bind : MBind M :=
  fun A B f m w t =>
    match m w t with
    | (t', Returned a) => f a w t'
    | (t', Raised e) => (t', Raised e)
    end.

Definition raise {A} (e : exn) : M A :=
  fun _ t => (t, Raised e).

Definition emit (e : event) : M unit :=
  fun _ t => (t ++ [e], Returned tt).

(** The answer of the outside to a request. *)
Definition answer {A} (f : world -> exn + A) : M A :=
  fun w t =>
    match f w with
    | inl e => (t, Raised e)
    | inr a => (t, Returned a)
    end.

(** [try: body except ...: handler]; a handler that does not match an
    exception re-raises it. *)
Definition try_except {A} (body : M A) (handler : exn -> M A) : M A :=
  fun w t =>
    match body w t with
    | (t', Returned a) => (t', Returned a)
    | (t', Raised e) => handler e w t'
    end.

Definition print (p : printed) : M unit := emit (EvPrint p).

Definition sleep (seconds : Z) : M unit := emit (EvSleep seconds).

(** [l[0]]. *)
Definition first {A} (l : list A) : M A :=
  match l with
  | x :: _ => mret x
  | [] => raise (OtherError "IndexError" "list index out of range")
  end.

(** [os.environ[k]]. *)
Definition getenv (k : string) : M string :=
  fun w t =>
    match environ w !! k with
    | Some v => (t, Returned v)
    | None => (t, Raised (OtherError "KeyError" ("'" +:+ k +:+ "'")))
    end.

(** [body[k]] on a decoded JSON document. *)
Definition json_item (body : json_value) (k : string) : M pyobj :=
  match body with
  | JObject d =>
      match d !! k with
      | Some v => mret v
      | None => raise (OtherError "KeyError" ("'" +:+ k +:+ "'"))
      end
  | JNonObject => raise (OtherError "TypeError" "not subscriptable by str")
  end.

(** ** The script *)

(** The module-level variables read from the environment. *)
Record config := {
  action : string;
  amd_ami : string;
  amd_instancetype : string;
  arm_ami : string;
  arm_instancetype : string;
  github_pat : string;
  mode : string;
  region : string;
  repo : string;
  securitygroup : string;
  subnet : string }.

(** Lines 24-34. *)
Definition read_config : M config :=
  action ← getenv "INPUT_ACTION";
  amd_ami ← getenv "INPUT_AMD_AMI_ID";
  amd_instancetype ← getenv "INPUT_AMD_INSTANCE_TYPE";
  arm_ami ← getenv "INPUT_ARM_AMI_ID";
  arm_instancetype ← getenv "INPUT_ARM_INSTANCE_TYPE";
  github_pat ← getenv "INPUT_GH_PERSONAL_ACCESS_TOKEN";
  mode ← getenv "INPUT_MODE";
  region ← getenv "AWS_REGION";
  repo ← getenv "GITHUB_REPOSITORY";
  securitygroup ← getenv "INPUT_SECURITY_GROUP_ID";
  subnet ← getenv "INPUT_SUBNET";
  mret {| action := action; amd_ami := amd_ami;
          amd_instancetype := amd_instancetype; arm_ami := arm_ami;
          arm_instancetype := arm_instancetype; github_pat := github_pat;
          mode := mode; region := region; repo := repo;
          securitygroup := securitygroup; subnet := subnet |}.

Section Script.

Variable cfg : config.

(** The request [create_instance] builds. *)
Definition create_request (ami instancetype label userdata : string)
  : run_instances_request :=
  {| BlockDeviceMappings :=
       [ {| DeviceName := "/dev/xvda";
            Ebs := {| DeleteOnTermination := true;
                      VolumeSize := 30;
                      VolumeType := "gp2" |} |} ];
     ImageId := ami;
     InstanceType := instancetype;
     MaxCount := 1;
     MinCount := 1;
     MonitoringEnabled := false;
     SecurityGroupIds := [securitygroup cfg];
     SubnetId := subnet cfg;
     TagSpecifications :=
       [ {| ResourceType := "instance";
            Tags := [ {| Key := "Name"; Value := label |} ] |} ];
     UserData := userdata |}.

Definition create_instance (ami instancetype label userdata : string)
  : M reservation :=
  let req := create_request ami instancetype label userdata in
  emit (EvRunInstances req);;
  answer (fun w => ec2_run_instances w req).

Definition get_instances_from_tag (tag : string) : M (list string) :=
  let tag_filter := [ {| Name := "tag:Name"; Values := [tag] |} ] in
  emit (EvDescribeInstances tag_filter);;
  response ← answer (fun w => ec2_describe_instances w tag_filter);
  mret (fold_left
          (fun instance_ids reservation =>
             fold_left
               (fun instance_ids instance =>
                  instance_ids ++ [InstanceId instance])
               (Instances reservation) instance_ids)
          (Reservations response) []).

Definition regtoken_url : string :=
  "https://api.github.com/repos/" +:+ repo cfg +:+
  "/actions/runners/registration-token".

Definition regtoken_headers : list (string * string) :=
  [ ("Authorization", "token " +:+ Py.strip (github_pat cfg)) ].

(** The body of the [try] of [get_regtoken]. *)
Definition fetch_regtoken : M pyobj :=
  emit (EvPost regtoken_url regtoken_headers);;
  r ← answer (fun w => requests_post w regtoken_url regtoken_headers);
  body ← answer (fun _ => json r);
  json_item body "token".

Definition regtoken_error : string :=
  "ERROR: Unable to get GHA self-hosted registration token".

Definition get_regtoken : M pyobj :=
  try_except fetch_regtoken
    (fun _ => print (PStr regtoken_error);; raise (SystemExit 1)).

Definition make_label : M string :=
  fun w => first (Py.split "-" (uuid_str (uuid1 w))) w.

Definition dry_run_marker : string := "DryRunOperation".

Definition terminate_instances (tag : string) : M unit :=
  instances_to_terminate ← get_instances_from_tag tag;
  print (PList instances_to_terminate);;
  try_except
    (emit (EvTerminateInstances instances_to_terminate true);;
     answer (fun w => ec2_terminate_instances w instances_to_terminate true))
    (fun e =>
       match e with
       | ClientError _ =>
           if negb (Py.py_in dry_run_marker (str_exn e)) then raise e
           else mret tt
       | _ => raise e
       end);;
  try_except
    (emit (EvTerminateInstances instances_to_terminate false);;
     answer (fun w => ec2_terminate_instances w instances_to_terminate false);;
     print (PStr "Termination was successful"))
    (fun e =>
       match e with
       | ClientError _ => print (PStr (str_exn e))
       | _ => raise e
       end).

(** The two boot-script templates (lines 126-132 and 136-143). *)
Definition buildx_userdata (arm_private_ip : string) : string :=
  Py.nl +:+
  "        echo " +:+ Py.dq +:+ arm_private_ip +:+ " buildx" +:+ Py.dq +:+
    " >> /etc/hosts" +:+ Py.nl +:+
  "        DOCKER_HOST=tcp://buildx:2375 docker buildx create --name cluster"
    +:+ Py.nl +:+
  "        docker buildx create --name cluster --append" +:+ Py.nl +:+
  "        docker buildx use cluster" +:+ Py.nl +:+
  "        docker buildx inspect --bootstrap" +:+ Py.nl +:+
  "        ".

Definition amd_userdata (buildx_userdata reg_token label : string) : string :=
  "#!/bin/bash" +:+ Py.nl +:+
  "        " +:+ buildx_userdata +:+ Py.nl +:+
  "        mkdir /tmp/actions-runner && cd /tmp/actions-runner" +:+ Py.nl +:+
  "        curl -o actions-runner-linux-x64-2.288.1.tar.gz -L https://github.com/actions/runner/releases/download/v2.288.1/actions-runner-linux-x64-2.288.1.tar.gz"
    +:+ Py.nl +:+
  "        tar xzf ./actions-runner-linux-x64-2.288.1.tar.gz" +:+ Py.nl +:+
  "        RUNNER_ALLOW_RUNASROOT=1 ./config.sh --url https://github.com/"
    +:+ repo cfg +:+ " --token " +:+ reg_token +:+ " --labels " +:+ label
    +:+ " --ephemeral --unattended" +:+ Py.nl +:+
  "        RUNNER_ALLOW_RUNASROOT=1 ./run.sh" +:+ Py.nl +:+
  "    ".

Definition label_output (label : string) : printed :=
  PStr ("::set-output name=label::" +:+ label).

(** Lines 118-134: the multi-architecture branch gives the builder
    fragment of the boot script. *)
Definition launch_arm (label : string) : M string :=
  let arm_userdata := EmptyString in
  arminstance ← create_instance (arm_ami cfg) (arm_instancetype cfg)
                                label arm_userdata;
  i ← first (Instances arminstance);
  let arm_private_ip := PrivateIpAddress i in
  i ← first (Instances arminstance);
  print (PStr ("Started ARM instance " +:+ InstanceId i +:+ " at "
               +:+ arm_private_ip));;
  i ← first (Instances arminstance);
  print (PStr ("Sleeping for 20s so " +:+ InstanceId i
               +:+ " will be ready"));;
  sleep 20;;
  mret (buildx_userdata arm_private_ip).

(** Lines 115-146. *)
Definition start : M unit :=
  reg_token ← get_regtoken;
  label ← make_label;
  print (PStr ("Creating instances with tag " +:+ label));;
  buildx_userdata ←
    (if (mode cfg =? "buildx")%string then launch_arm label
     else mret EmptyString);
  let amd_userdata := amd_userdata buildx_userdata (py_str reg_token) label in
  print (label_output label);;
  amdinstance ← create_instance (amd_ami cfg) (amd_instancetype cfg)
                                label amd_userdata;
  mret tt.

(** Lines 148-149. *)
Definition stop : M unit :=
  tag ← getenv "INPUT_LABEL";
  terminate_instances tag.

(** Lines 114 and 148: two [if]s in a row. *)
Definition dispatch : M unit :=
  (if (action cfg =? "start")%string then start else mret tt);;
  (if (action cfg =? "stop")%string then stop else mret tt).

End Script.

(** Line 36: the client is built once the variables are read and before
    the dispatch; the requests of the script go through it. *)
Definition new_client (region_name : string) : M unit :=
  answer (fun w => boto3_client w region_name).

Definition main : M unit :=
  cfg ← read_config;
  ec2client ← new_client (region cfg);
  dispatch cfg.

(** One invocation of the script in the world [w]. *)
Definition run (w : world) : list event * outcome unit := main w [].

Definition trace (w : world) : list event := fst (run w).

Definition result (w : world) : outcome unit := snd (run w).

(** The exit status of the process: 0 at the end of the script, the code
    of a [SystemExit], 1 for any other exception that is not caught. *)
Definition exit_status (o : outcome unit) : Z :=
  match o with
  | Returned _ => 0
  | Raised (SystemExit code) => code
  | Raised _ => 1
  end.

(** ** Reading a trace *)

(** The requests of the instance-creation calls, in order. *)
Fixpoint creations (t : list event) : list run_instances_request :=
  match t with
  | [] => []
  | EvRunInstances req :: t' => req :: creations t'
  | _ :: t' => creations t'
  end.

(** The termination calls, in order: the instance IDs and the dry-run flag. *)
Fixpoint terminations (t : list event) : list (list string * bool) :=
  match t with
  | [] => []
  | EvTerminateInstances ids dry_run :: t' => (ids, dry_run) :: terminations t'
  | _ :: t' => terminations t'
  end.

(** The REST calls, in order. *)
Fixpoint posts (t : list event) : list string :=
  match t with
  | [] => []
  | EvPost url _ :: t' => url :: posts t'
  | _ :: t' => posts t'
  end.

(** The value of the [Name] tag of a creation request. *)
Definition name_tags (req : run_instances_request) : list string :=
  flat_map
    (fun spec =>
       flat_map
         (fun t => if (Key t =? "Name")%string then [Value t] else [])
         (Tags spec))
    (TagSpecifications req).

(** The label one invocation generates. *)
Definition label_of (w : world) : string :=
  hd EmptyString (Py.split "-" (uuid_str (uuid1 w))).

(** The registration-token fetch fails when the body of the [try] of
    [get_regtoken] raises, whatever the exception; it gives [token] when
    the body returns it. *)
Definition fetch_fails (cfg : config) (w : world) : Prop :=
  exists e, snd (fetch_regtoken cfg w []) = Raised e.

Definition fetch_gives (cfg : config) (w : world) (token : pyobj) : Prop :=
  snd (fetch_regtoken cfg w []) = Returned token.

(** The environment holds every variable the script reads at start-up. *)
Definition configured (w : world) (cfg : config) : Prop :=
  read_config w [] = ([], Returned cfg).

(** The client of line 36 is built for the configured region. *)
Definition client_ready (w : world) (cfg : config) : Prop :=
  boto3_client w (region cfg) = inr tt.

(** The first two effects of a [start] that gets its token: the REST
    call and the line that announces the label. *)
Definition posted (cfg : config) : event :=
  EvPost (regtoken_url cfg) (regtoken_headers cfg).

Definition announced (w : world) : event :=
  EvPrint (PStr ("Creating instances with tag " +:+ label_of w)).

(** The two creation requests of a [start]: the ARM helper's, and the
    primary (AMD) instance's for a registration token and a builder
    fragment. *)
Definition arm_request (cfg : config) (w : world) : run_instances_request :=
  create_request cfg (arm_ami cfg) (arm_instancetype cfg) (label_of w)
    EmptyString.

Definition amd_request (cfg : config) (w : world) (token : pyobj)
    (fragment : string) : run_instances_request :=
  create_request cfg (amd_ami cfg) (amd_instancetype cfg) (label_of w)
    (amd_userdata cfg fragment (py_str token) (label_of w)).

(** How a [start] ends once the primary creation call is issued. *)
Definition created (w : world) (req : run_instances_request) : outcome unit :=
  match ec2_run_instances w req with
  | inl e => Raised e
  | inr _ => Returned tt
  end.

(** The instance IDs a [describe_instances] response lists, reservation by
    reservation: the instances a label matches. *)
Definition instance_ids (r : describe_response) : list string :=
  flat_map (fun reservation => map InstanceId (Instances reservation))
    (Reservations r).

Definition label_filter (tag : string) : list filter :=
  [ {| Name := "tag:Name"; Values := [tag] |} ].

(** The error a dry-run answer makes [terminate_instances] propagate, if
    any: every exception but a [ClientError] that carries the marker. *)
Definition dry_run_fatal (a : exn + unit) : option exn :=
  match a with
  | inr _ => None
  | inl (ClientError text) =>
      if Py.py_in dry_run_marker text then None else Some (ClientError text)
  | inl e => Some e
  end.

(** What follows the real termination call, by its answer. *)
Definition after_real_call (a : exn + unit) : list event * outcome unit :=
  match a with
  | inr _ => ([EvPrint (PStr "Termination was successful")], Returned tt)
  | inl (ClientError text) => ([EvPrint (PStr text)], Returned tt)
  | inl e => ([], Raised e)
  end.

(** The configuration the example worlds give. *)
Definition cfg0 (act md : string) : config :=
  {| action := act; amd_ami := "ami-amd"; amd_instancetype := "t3.large";
     arm_ami := "ami-arm"; arm_instancetype := "t4g.large";
     github_pat := "ghp_pat "; mode := md; region := "us-east-1";
     repo := "owner/repo"; securitygroup := "sg-1"; subnet := "subnet-1" |}.

(** The reading of "the label is emitted after the primary instance is
    launched": wherever the output line stands in the trace, a creation
    call for the AMD image stands before it. *)
Definition label_output_after_amd_creation (cfg : config) (w : world) : Prop :=
  forall pre post,
    trace w = pre ++ EvPrint (label_output (label_of w)) :: post ->
    exists req, In req (creations pre) /\ ImageId req = amd_ami cfg.

(** A world for the examples: every variable set, every request answered
    well; the provider reports two instances under the label. *)
Definition env0 (act md : string) : gmap string string :=
  list_to_map
    [ ("INPUT_ACTION", act); ("INPUT_AMD_AMI_ID", "ami-amd");
      ("INPUT_AMD_INSTANCE_TYPE", "t3.large"); ("INPUT_ARM_AMI_ID", "ami-arm");
      ("INPUT_ARM_INSTANCE_TYPE", "t4g.large");
      ("INPUT_GH_PERSONAL_ACCESS_TOKEN", "ghp_pat "); ("INPUT_MODE", md);
      ("AWS_REGION", "us-east-1"); ("GITHUB_REPOSITORY", "owner/repo");
      ("INPUT_SECURITY_GROUP_ID", "sg-1"); ("INPUT_SUBNET", "subnet-1");
      ("INPUT_LABEL", "6fa459ea") ].

Definition world0 (act md : string) : world :=
  {| environ := env0 act md;
     boto3_client := fun _ => inr tt;
     uuid1 := 0x6fa459eaee8a11ec8ea00242ac120002%N;
     requests_post := fun _ _ =>
       inr {| json := inr (JObject {[ "token" := PyStr "REGTOKEN" ]}) |};
     ec2_run_instances := fun _ =>
       inr {| Instances :=
                [ {| InstanceId := "i-0a"; PrivateIpAddress := "10.0.0.7" |} ] |};
     ec2_describe_instances := fun _ =>
       inr {| Reservations :=
                [ {| Instances :=
                       [ {| InstanceId := "i-0a"; PrivateIpAddress := "10.0.0.7" |} ] |};
                  {| Instances :=
                       [ {| InstanceId := "i-0b"; PrivateIpAddress := "10.0.0.8" |} ] |} ] |};
     ec2_terminate_instances := fun _ dry_run =>
       if dry_run
       then inl (ClientError "An error occurred (DryRunOperation) when calling the TerminateInstances operation: Request would have succeeded, but DryRun flag is set.")
       else inr tt |}.

(** A host that answers with an error document and no token. *)
Definition world_bad_credentials : world :=
  {| environ := env0 "start" "buildx";
     boto3_client := fun _ => inr tt;
     uuid1 := 0x6fa459eaee8a11ec8ea00242ac120002%N;
     requests_post := fun _ _ =>
       inr {| json := inr (JObject {[ "message" := PyStr "Bad credentials" ]}) |};
     ec2_run_instances := ec2_run_instances (world0 "start" "buildx");
     ec2_describe_instances := ec2_describe_instances (world0 "start" "buildx");
     ec2_terminate_instances := ec2_terminate_instances (world0 "start" "buildx") |}.

(** A provider that refuses the dry run for want of permission. *)
Definition world_unauthorized : world :=
  {| environ := env0 "stop" "single";
     boto3_client := fun _ => inr tt;
     uuid1 := 0x6fa459eaee8a11ec8ea00242ac120002%N;
     requests_post := requests_post (world0 "stop" "single");
     ec2_run_instances := ec2_run_instances (world0 "stop" "single");
     ec2_describe_instances := ec2_describe_instances (world0 "stop" "single");
     ec2_terminate_instances := fun _ _ =>
       inl (ClientError "An error occurred (UnauthorizedOperation) when calling the TerminateInstances operation: You are not authorized to perform this operation.") |}.

(** A provider that knows no instance under the label; [refuse] says
    whether it rejects a termination request that names no instance. *)
Definition world_no_instances (refuse : bool) : world :=
  {| environ := env0 "stop" "single";
     boto3_client := fun _ => inr tt;
     uuid1 := 0x6fa459eaee8a11ec8ea00242ac120002%N;
     requests_post := requests_post (world0 "stop" "single");
     ec2_run_instances := ec2_run_instances (world0 "stop" "single");
     ec2_describe_instances := fun _ => inr {| Reservations := [] |};
     ec2_terminate_instances :=
       if refuse
       then fun _ _ =>
         inl (ClientError "An error occurred (MissingParameter) when calling the TerminateInstances operation: The request must contain the parameter InstanceId")
       else ec2_terminate_instances (world0 "stop" "single") |}.

(** The reading of "stop with no matching instance completes without error
    and terminates nothing": the script returns, and no termination call
    names an instance. *)
Definition stop_is_silent (w : world) : Prop :=
  result w = Returned tt
  /\ forall ids dry_run, In (ids, dry_run) (terminations (trace w)) -> ids = [].

(** ** Further readings of a trace and further example worlds *)

(** The variables lines 24-34 read, in the order they are read. *)
Definition required_variables : list string :=
  [ "INPUT_ACTION"; "INPUT_AMD_AMI_ID"; "INPUT_AMD_INSTANCE_TYPE";
    "INPUT_ARM_AMI_ID"; "INPUT_ARM_INSTANCE_TYPE";
    "INPUT_GH_PERSONAL_ACCESS_TOKEN"; "INPUT_MODE"; "AWS_REGION";
    "GITHUB_REPOSITORY"; "INPUT_SECURITY_GROUP_ID"; "INPUT_SUBNET" ].

(** The text of a [KeyError] for the key [k]. *)
Definition key_error (k : string) : exn :=
  OtherError "KeyError" ("'" +:+ k +:+ "'").

(** The lookups, the pauses and the printed values of a trace, in order. *)
Fixpoint describes (t : list event) : list (list filter) :=
  match t with
  | [] => []
  | EvDescribeInstances filters :: t' => filters :: describes t'
  | _ :: t' => describes t'
  end.

Fixpoint sleeps (t : list event) : list Z :=
  match t with
  | [] => []
  | EvSleep seconds :: t' => seconds :: sleeps t'
  | _ :: t' => sleeps t'
  end.

Fixpoint prints (t : list event) : list printed :=
  match t with
  | [] => []
  | EvPrint p :: t' => p :: prints t'
  | _ :: t' => prints t'
  end.

(** A lower-case hexadecimal digit. *)
Definition is_hex_digit (c : ascii) : bool :=
  let n := nat_of_ascii c in
  (((48 <=? n) && (n <=? 57)) || ((97 <=? n) && (n <=? 102)))%nat.

Fixpoint all_chars (p : ascii -> bool) (s : string) : bool :=
  match s with
  | EmptyString => true
  | String c s' => p c && all_chars p s'
  end.

(** The command line that registers the runner, as the boot script has
    it. *)
Definition config_command (cfg : config) (reg_token label : string) : string :=
  "RUNNER_ALLOW_RUNASROOT=1 ./config.sh --url https://github.com/"
  +:+ repo cfg +:+ " --token " +:+ reg_token +:+ " --labels " +:+ label
  +:+ " --ephemeral --unattended".

(** A configuration with another personal access token. *)
Definition with_pat (cfg : config) (pat : string) : config :=
  {| action := action cfg; amd_ami := amd_ami cfg;
     amd_instancetype := amd_instancetype cfg; arm_ami := arm_ami cfg;
     arm_instancetype := arm_instancetype cfg; github_pat := pat;
     mode := mode cfg; region := region cfg; repo := repo cfg;
     securitygroup := securitygroup cfg; subnet := subnet cfg |}.

(** Example worlds that differ from [world0] in one answer. *)
Definition with_environ (env : gmap string string) (w : world) : world :=
  {| environ := env; boto3_client := boto3_client w; uuid1 := uuid1 w;
     requests_post := requests_post w;
     ec2_run_instances := ec2_run_instances w;
     ec2_describe_instances := ec2_describe_instances w;
     ec2_terminate_instances := ec2_terminate_instances w |}.

Definition with_post (f : string -> list (string * string) -> exn + response)
    (w : world) : world :=
  {| environ := environ w; boto3_client := boto3_client w; uuid1 := uuid1 w;
     requests_post := f;
     ec2_run_instances := ec2_run_instances w;
     ec2_describe_instances := ec2_describe_instances w;
     ec2_terminate_instances := ec2_terminate_instances w |}.

Definition with_run_instances (f : run_instances_request -> exn + reservation)
    (w : world) : world :=
  {| environ := environ w; boto3_client := boto3_client w; uuid1 := uuid1 w;
     requests_post := requests_post w;
     ec2_run_instances := f;
     ec2_describe_instances := ec2_describe_instances w;
     ec2_terminate_instances := ec2_terminate_instances w |}.

Definition with_describe_instances (f : list filter -> exn + describe_response)
    (w : world) : world :=
  {| environ := environ w; boto3_client := boto3_client w; uuid1 := uuid1 w;
     requests_post := requests_post w;
     ec2_run_instances := ec2_run_instances w;
     ec2_describe_instances := f;
     ec2_terminate_instances := ec2_terminate_instances w |}.

Definition with_terminate_instances (f : list string -> bool -> exn + unit)
    (w : world) : world :=
  {| environ := environ w; boto3_client := boto3_client w; uuid1 := uuid1 w;
     requests_post := requests_post w;
     ec2_run_instances := ec2_run_instances w;
     ec2_describe_instances := ec2_describe_instances w;
     ec2_terminate_instances := f |}.

Definition capacity_error : exn :=
  ClientError "An error occurred (InsufficientInstanceCapacity) when calling the RunInstances operation: Insufficient capacity.".

(** The provider launches the ARM helper (the request without a boot
    script) and refuses the primary instance. *)
Definition world_amd_refused : world :=
  with_run_instances
    (fun req =>
       if (UserData req =? EmptyString)%string
       then ec2_run_instances (world0 "start" "buildx") req
       else inl capacity_error)
    (world0 "start" "buildx").

(** The provider refuses every launch. *)
Definition world_launch_refused : world :=
  with_run_instances (fun _ => inl capacity_error) (world0 "start" "buildx").

(** The host answers with an object whose token is [null]. *)
Definition world_null_token : world :=
  with_post
    (fun _ _ => inr {| json := inr (JObject {[ "token" := PyOther "None" ]}) |})
    (world0 "start" "single").

(** The lookup is refused. *)
Definition world_lookup_refused : world :=
  with_describe_instances
    (fun _ => inl (ClientError "An error occurred (UnauthorizedOperation) when calling the DescribeInstances operation: You are not authorized to perform this operation."))
    (world0 "stop" "single").

(** The dry run passes and the real termination is refused. *)
Definition world_real_refused : world :=
  with_terminate_instances
    (fun ids dry_run =>
       if dry_run then ec2_terminate_instances (world0 "stop" "single") ids true
       else inl (ClientError "An error occurred (OperationNotPermitted) when calling the TerminateInstances operation: The instance may not be terminated."))
    (world0 "stop" "single").

(** An environment whose region is no region name: the client cannot be
    built. *)
Definition world_bad_region (act : string) : world :=
  {| environ := <[ "AWS_REGION" := "us east!" ]> (env0 act "single");
     boto3_client := fun region_name =>
       if (region_name =? "us-east-1")%string then inr tt
       else inl (OtherError "InvalidRegionError"
                   "Provided region_name 'us east!' doesn't match a supported format.");
     uuid1 := uuid1 (world0 act "single");
     requests_post := requests_post (world0 act "single");
     ec2_run_instances := ec2_run_instances (world0 act "single");
     ec2_describe_instances := ec2_describe_instances (world0 act "single");
     ec2_terminate_instances := ec2_terminate_instances (world0 act "single") |}.

(** The reading of "an action other than start and stop has no effect and
    exits with status 0". *)
Definition other_action_is_silent (w : world) : Prop :=
  posts (trace w) = [] /\ creations (trace w) = []
  /\ terminations (trace w) = []
  /\ result w = Returned tt /\ exit_status (result w) = 0%Z.

(** * Properties *)

(** ** Strings *)

Section StringFacts.

Lemma append_cons (x : ascii) (a b : string) :
  String x a +:+ b = String x (a +:+ b).
Proof. reflexivity. Qed.

Lemma append_nil_l (b : string) : EmptyString +:+ b = b.
Proof. reflexivity. Qed.

Lemma append_assoc (a b c : string) : (a +:+ b) +:+ c = a +:+ (b +:+ c).
Proof.
  induction a as [|x a IH]; [reflexivity|].
  now rewrite !append_cons, IH.
Qed.

Lemma startswith_spec (p s : string) :
  Py.startswith p s = true <-> exists r, s = p +:+ r.
Proof.
  revert s; induction p as [|a p IH]; intros s; simpl.
  - split; [intros _; now exists s | reflexivity].
  - destruct s as [|b s].
    + split; [discriminate | intros [r Hr]; discriminate].
    + destruct (Ascii.eqb_spec a b) as [->|Hab].
      * rewrite IH. split; intros [r Hr]; exists r.
        -- now rewrite Hr.
        -- rewrite append_cons in Hr. now injection Hr.
      * split; [discriminate|]. intros [r Hr]. rewrite append_cons in Hr.
        injection Hr; intros _ Hb. now symmetry in Hb.
Qed.

Lemma contains_here (pre needle post : string) :
  Py.Contains (pre +:+ needle +:+ post) needle.
Proof. now exists pre, post. Qed.

Lemma contains_app_r (p s needle : string) :
  Py.Contains s needle -> Py.Contains (p +:+ s) needle.
Proof.
  intros (pre & post & ->). exists (p +:+ pre), post. now rewrite append_assoc.
Qed.

Lemma contains_app_l (s q needle : string) :
  Py.Contains s needle -> Py.Contains (s +:+ q) needle.
Proof.
  intros (pre & post & ->). exists pre, (post +:+ q).
  now rewrite !append_assoc.
Qed.

(** The substring test of the script decides [Contains]. *)
Lemma py_in_spec (needle hay : string) :
  Py.py_in needle hay = true <-> Py.Contains hay needle.
Proof.
  induction hay as [|c hay IH].
  - simpl. destruct (Py.startswith needle EmptyString) eqn:E.
    + apply startswith_spec in E as [r Hr]. split; [|reflexivity].
      intros _. exists EmptyString, r. exact Hr.
    + split; [discriminate|]. intros (pre & post & H).
      destruct pre; [|discriminate]. rewrite append_nil_l in H.
      assert (Py.startswith needle EmptyString = true) as E'
        by (apply startswith_spec; now exists post).
      congruence.
  - simpl. destruct (Py.startswith needle (String c hay)) eqn:E.
    + apply startswith_spec in E as [r Hr]. split; [|reflexivity].
      intros _. exists EmptyString, r. exact Hr.
    + rewrite IH. split.
      * intros (pre & post & ->). now exists (String c pre), post.
      * intros (pre & post & H). destruct pre as [|x pre].
        -- rewrite append_nil_l in H.
           assert (Py.startswith needle (String c hay) = true) as E'
             by (apply startswith_spec; now exists post).
           congruence.
        -- rewrite append_cons in H. injection H; intros -> _.
           now exists pre, post.
Qed.

Lemma split_not_nil (sep : ascii) (s : string) : Py.split sep s <> [].
Proof.
  destruct s as [|c s]; simpl; [discriminate|].
  destruct (Ascii.eqb c sep); [discriminate|].
  destruct (Py.split sep s); discriminate.
Qed.

(** The first piece of a split has no separator in it. *)
Lemma split_first_lacks (sep : ascii) (s : string) :
  exists piece pieces,
    Py.split sep s = piece :: pieces /\ Py.lacks sep piece.
Proof.
  induction s as [|c s (piece & pieces & E & L)]; simpl.
  - now exists EmptyString, [].
  - destruct (Ascii.eqb_spec c sep) as [->|Hc].
    + now exists EmptyString, (Py.split sep s).
    + rewrite E. exists (String c piece), pieces. now simpl.
Qed.

(** The first piece of a text that starts with another character than the
    separator starts with that character. *)
Lemma split_first_nonempty (sep c : ascii) (s : string) :
  c <> sep ->
  exists piece pieces, Py.split sep (String c s) = String c piece :: pieces.
Proof.
  intros Hc. simpl. destruct (Ascii.eqb_spec c sep) as [->|_]; [congruence|].
  destruct (Py.split sep s) as [|piece pieces] eqn:E.
  - now apply split_not_nil in E.
  - now exists piece, pieces.
Qed.

Lemma hex_char_not_dash (d : N) : hex_char d <> "-"%char.
Proof.
  destruct d as [|p]; [discriminate|].
  do 5 (try destruct p as [p|p|]); discriminate.
Qed.

(** The text of the hexadecimal digits starts with a digit. *)
Lemma hex_digits_head (k : nat) (n : N) (acc : string) :
  exists d rest, hex_digits (S k) n acc = String (hex_char d) rest.
Proof.
  revert n acc; induction k as [|k IH]; intros n acc.
  - simpl. now exists (n mod 16)%N, acc.
  - change (hex_digits (S (S k)) n acc)
      with (hex_digits (S k) (n / 16)%N (String (hex_char (n mod 16)%N) acc)).
    apply IH.
Qed.

Lemma uuid_str_head (n : N) :
  exists d rest, uuid_str n = String (hex_char d) rest.
Proof.
  unfold uuid_str.
  destruct (hex_digits_head 31 n EmptyString) as (d & rest & ->).
  exists d. cbn [substring]. rewrite append_cons. eauto.
Qed.

End StringFacts.

(** ** The steps of the script *)

Ltac case_answer :=
  match goal with
  | |- context [match ?x with inl _ => _ | inr _ => _ end] => destruct x
  end.

Section Steps.

Variable cfg : config.
Variable w : world.

Lemma run_started :
  configured w cfg ->
  run w = match boto3_client w (region cfg) with
          | inl e => ([], Raised e)
          | inr _ => dispatch cfg w []
          end.
Proof.
  unfold configured, run, main, new_client, answer, mbind, M_bind.
  intros ->. now destruct (boto3_client w (region cfg)).
Qed.

Lemma run_configured :
  configured w cfg -> client_ready w cfg -> run w = dispatch cfg w [].
Proof.
  intros Hc Hr. rewrite (run_started Hc). unfold client_ready in Hr.
  now rewrite Hr.
Qed.

Lemma run_dispatch_cases :
  configured w cfg ->
  (exists e, boto3_client w (region cfg) = inl e /\ run w = ([], Raised e))
  \/ (client_ready w cfg /\ run w = dispatch cfg w []).
Proof.
  intros Hc. rewrite (run_started Hc). unfold client_ready.
  destruct (boto3_client w (region cfg)) as [e|[]]; [left; eauto | now right].
Qed.

Lemma dispatch_start :
  action cfg = "start" -> dispatch cfg w [] = start cfg w [].
Proof.
  intros H. unfold dispatch, mbind, M_bind. rewrite H. simpl.
  now destruct (start cfg w []) as [t [[]|e]].
Qed.

Lemma dispatch_stop :
  action cfg = "stop" -> dispatch cfg w [] = stop w [].
Proof.
  intros H. unfold dispatch, mbind, M_bind. rewrite H. reflexivity.
Qed.

Lemma dispatch_other :
  action cfg <> "start" -> action cfg <> "stop" ->
  dispatch cfg w [] = ([], Returned tt).
Proof.
  intros H1 H2. unfold dispatch, mbind, M_bind.
  apply String.eqb_neq in H1, H2. now rewrite H1, H2.
Qed.

Lemma fetch_regtoken_run (t : list event) :
  fetch_regtoken cfg w t =
  (t ++ [EvPost (regtoken_url cfg) (regtoken_headers cfg)],
   snd (fetch_regtoken cfg w [])).
Proof.
  unfold fetch_regtoken, mbind, M_bind, emit, answer. simpl.
  destruct (requests_post w _ _) as [e|r]; [reflexivity|].
  destruct (json r) as [e|[d|]]; try reflexivity.
  simpl. now destruct (d !! "token").
Qed.

Lemma get_regtoken_fails (t : list event) :
  fetch_fails cfg w ->
  get_regtoken cfg w t =
  (t ++ [EvPost (regtoken_url cfg) (regtoken_headers cfg);
         EvPrint (PStr regtoken_error)],
   Raised (SystemExit 1)).
Proof.
  intros [e He]. unfold get_regtoken, try_except.
  rewrite fetch_regtoken_run, He.
  unfold mbind, M_bind, print, emit, raise.
  now rewrite <- app_assoc.
Qed.

Lemma get_regtoken_gives (t : list event) (token : pyobj) :
  fetch_gives cfg w token ->
  get_regtoken cfg w t =
  (t ++ [EvPost (regtoken_url cfg) (regtoken_headers cfg)], Returned token).
Proof.
  intros He. unfold get_regtoken, try_except.
  now rewrite fetch_regtoken_run, He.
Qed.

Lemma fetch_fails_or_gives :
  fetch_fails cfg w \/ exists token, fetch_gives cfg w token.
Proof.
  unfold fetch_fails, fetch_gives.
  destruct (snd (fetch_regtoken cfg w [])) as [token|e]; eauto.
Qed.

Lemma make_label_run (t : list event) :
  make_label w t = (t, Returned (label_of w)).
Proof.
  unfold make_label, label_of.
  destruct (Py.split "-" (uuid_str (uuid1 w))) as [|piece pieces] eqn:E.
  - now apply split_not_nil in E.
  - reflexivity.
Qed.

End Steps.

(** ** The runs of [start] *)

Section StartRuns.

Variable cfg : config.
Variable w : world.

Ltac start_prefix H :=
  unfold start, mbind, M_bind;
  first [ rewrite (get_regtoken_gives _ _ _ _ H)
        | rewrite (get_regtoken_fails _ _ _ H) ];
  try rewrite make_label_run.

Lemma start_fetch_fails :
  fetch_fails cfg w ->
  start cfg w [] =
  ([posted cfg; EvPrint (PStr regtoken_error)], Raised (SystemExit 1)).
Proof. intros H. now start_prefix H. Qed.

Lemma start_plain (token : pyobj) :
  fetch_gives cfg w token ->
  mode cfg <> "buildx" ->
  start cfg w [] =
  ([posted cfg; announced w; EvPrint (label_output (label_of w));
    EvRunInstances (amd_request cfg w token EmptyString)],
   created w (amd_request cfg w token EmptyString)).
Proof.
  intros H Hm. start_prefix H. apply String.eqb_neq in Hm. rewrite Hm.
  unfold created, amd_request, create_instance, mbind, M_bind, answer. simpl.
  now case_answer.
Qed.

Lemma start_buildx_arm_raises (token : pyobj) (e : exn) :
  fetch_gives cfg w token ->
  mode cfg = "buildx" ->
  ec2_run_instances w (arm_request cfg w) = inl e ->
  start cfg w [] = ([posted cfg; announced w; EvRunInstances (arm_request cfg w)], Raised e).
Proof.
  intros H Hm Ha. start_prefix H. rewrite Hm. simpl.
  unfold launch_arm, create_instance, mbind, M_bind, answer. simpl.
  fold (arm_request cfg w). now rewrite Ha.
Qed.

Lemma start_buildx_arm_empty (token : pyobj) :
  fetch_gives cfg w token ->
  mode cfg = "buildx" ->
  ec2_run_instances w (arm_request cfg w) = inr {| Instances := [] |} ->
  start cfg w [] =
  ([posted cfg; announced w; EvRunInstances (arm_request cfg w)],
   Raised (OtherError "IndexError" "list index out of range")).
Proof.
  intros H Hm Ha. start_prefix H. rewrite Hm. simpl.
  unfold launch_arm, create_instance, mbind, M_bind, answer. simpl.
  fold (arm_request cfg w). now rewrite Ha.
Qed.

Lemma start_buildx_arm_ok (token : pyobj) (i : instance) (rest : list instance) :
  fetch_gives cfg w token ->
  mode cfg = "buildx" ->
  ec2_run_instances w (arm_request cfg w) = inr {| Instances := i :: rest |} ->
  start cfg w [] =
  ([posted cfg; announced w; EvRunInstances (arm_request cfg w);
    EvPrint (PStr ("Started ARM instance " +:+ InstanceId i +:+ " at "
                   +:+ PrivateIpAddress i));
    EvPrint (PStr ("Sleeping for 20s so " +:+ InstanceId i
                   +:+ " will be ready"));
    EvSleep 20;
    EvPrint (label_output (label_of w));
    EvRunInstances
      (amd_request cfg w token (buildx_userdata (PrivateIpAddress i)))],
   created w (amd_request cfg w token (buildx_userdata (PrivateIpAddress i)))).
Proof.
  intros H Hm Ha. start_prefix H. rewrite Hm. simpl.
  unfold launch_arm, create_instance, mbind, M_bind, answer. simpl.
  fold (arm_request cfg w). rewrite Ha. simpl.
  unfold created, amd_request.
  now case_answer.
Qed.

(** Every run of [start] is one of the five above. *)
Lemma start_cases :
  fetch_fails cfg w
  \/ (exists token, fetch_gives cfg w token /\ mode cfg <> "buildx")
  \/ (exists token e, fetch_gives cfg w token /\ mode cfg = "buildx"
        /\ ec2_run_instances w (arm_request cfg w) = inl e)
  \/ (exists token, fetch_gives cfg w token /\ mode cfg = "buildx"
        /\ ec2_run_instances w (arm_request cfg w) = inr {| Instances := [] |})
  \/ (exists token i rest, fetch_gives cfg w token /\ mode cfg = "buildx"
        /\ ec2_run_instances w (arm_request cfg w)
           = inr {| Instances := i :: rest |}).
Proof.
  destruct (fetch_fails_or_gives cfg w) as [F|[token G]]; [now left|right].
  destruct (String.eqb_spec (mode cfg) "buildx") as [Hm|Hm]; [right|left; eauto].
  destruct (ec2_run_instances w (arm_request cfg w)) as [e|[[|i rest]]] eqn:E.
  - left. eauto.
  - right; left. eauto.
  - right; right. eauto 6.
Qed.

End StartRuns.

(** ** The runs of [stop] *)

Section StopRuns.

Variable w : world.

Lemma collect_ids (l : list instance) (acc : list string) :
  fold_left (fun instance_ids instance => instance_ids ++ [InstanceId instance])
    l acc
  = acc ++ map InstanceId l.
Proof.
  revert acc; induction l as [|i l IH]; intros acc; simpl.
  - now rewrite app_nil_r.
  - rewrite IH. now rewrite <- app_assoc.
Qed.

Lemma collect_reservations (rs : list reservation) (acc : list string) :
  fold_left
    (fun instance_ids reservation =>
       fold_left
         (fun instance_ids instance => instance_ids ++ [InstanceId instance])
         (Instances reservation) instance_ids)
    rs acc
  = acc ++ flat_map (fun reservation => map InstanceId (Instances reservation)) rs.
Proof.
  revert acc; induction rs as [|r rs IH]; intros acc; simpl.
  - now rewrite app_nil_r.
  - rewrite IH, collect_ids. now rewrite <- app_assoc.
Qed.

Lemma get_instances_from_tag_raises (tag : string) (e : exn) :
  ec2_describe_instances w (label_filter tag) = inl e ->
  get_instances_from_tag tag w [] =
  ([EvDescribeInstances (label_filter tag)], Raised e).
Proof.
  intros H. unfold get_instances_from_tag, mbind, M_bind, answer. simpl.
  fold (label_filter tag). now rewrite H.
Qed.

Lemma get_instances_from_tag_gives (tag : string) (r : describe_response) :
  ec2_describe_instances w (label_filter tag) = inr r ->
  get_instances_from_tag tag w [] =
  ([EvDescribeInstances (label_filter tag)], Returned (instance_ids r)).
Proof.
  intros H. unfold get_instances_from_tag, mbind, M_bind, answer. simpl.
  fold (label_filter tag). rewrite H. unfold mret, M_ret.
  now rewrite collect_reservations.
Qed.

Lemma stop_without_label :
  environ w !! "INPUT_LABEL" = None ->
  stop w [] = ([], Raised (OtherError "KeyError" "'INPUT_LABEL'")).
Proof.
  intros H. unfold stop, mbind, M_bind, getenv. now rewrite H.
Qed.

Lemma stop_with_label (tag : string) :
  environ w !! "INPUT_LABEL" = Some tag ->
  stop w [] = terminate_instances tag w [].
Proof.
  intros H. unfold stop, mbind, M_bind, getenv. now rewrite H.
Qed.

Lemma terminate_lookup_raises (tag : string) (e : exn) :
  ec2_describe_instances w (label_filter tag) = inl e ->
  terminate_instances tag w [] =
  ([EvDescribeInstances (label_filter tag)], Raised e).
Proof.
  intros H. unfold terminate_instances, mbind, M_bind.
  now rewrite (get_instances_from_tag_raises _ _ H).
Qed.

(** Every run of [terminate_instances] whose lookup answers. *)
Lemma terminate_run (tag : string) (r : describe_response) :
  ec2_describe_instances w (label_filter tag) = inr r ->
  let ids := instance_ids r in
  let prefix := [EvDescribeInstances (label_filter tag); EvPrint (PList ids);
                 EvTerminateInstances ids true] in
  terminate_instances tag w [] =
  match dry_run_fatal (ec2_terminate_instances w ids true) with
  | Some e => (prefix, Raised e)
  | None =>
      let after := after_real_call (ec2_terminate_instances w ids false) in
      (prefix ++ EvTerminateInstances ids false :: fst after, snd after)
  end.
Proof.
  intros H ids prefix. unfold terminate_instances, mbind, M_bind.
  rewrite (get_instances_from_tag_gives _ _ H). fold ids.
  unfold try_except, print, emit, answer, mbind, M_bind, dry_run_fatal. simpl.
  destruct (ec2_terminate_instances w ids true) as [[text| |]|[]]; simpl;
    try reflexivity.
  - destruct (Py.py_in dry_run_marker text); simpl; [|reflexivity].
    destruct (ec2_terminate_instances w ids false) as [[]|[]]; reflexivity.
  - destruct (ec2_terminate_instances w ids false) as [[]|[]]; reflexivity.
Qed.

End StopRuns.

(** ** Boot scripts *)

Section BootScripts.

Variable cfg : config.

Lemma contains_head (needle post : string) :
  Py.Contains (needle +:+ post) needle.
Proof. now exists EmptyString, post. Qed.

Ltac find_piece :=
  repeat first [ apply contains_head | apply contains_app_r ].

Lemma amd_userdata_token (fragment reg_token label : string) :
  Py.Contains (amd_userdata cfg fragment reg_token label) reg_token.
Proof. unfold amd_userdata. find_piece. Qed.

Lemma amd_userdata_label (fragment reg_token label : string) :
  Py.Contains (amd_userdata cfg fragment reg_token label) label.
Proof. unfold amd_userdata. find_piece. Qed.

Lemma amd_userdata_fragment (fragment reg_token label : string) :
  Py.Contains (amd_userdata cfg fragment reg_token label) fragment.
Proof. unfold amd_userdata. find_piece. Qed.

Lemma buildx_userdata_ip (arm_private_ip : string) :
  Py.Contains (buildx_userdata arm_private_ip) arm_private_ip.
Proof. unfold buildx_userdata. find_piece. Qed.

Lemma contains_trans (a b c : string) :
  Py.Contains a b -> Py.Contains b c -> Py.Contains a c.
Proof.
  intros (p & q & ->) (p' & q' & ->). exists (p +:+ p'), (q' +:+ q).
  now rewrite !append_assoc.
Qed.

(** The label stands in the boot script as the value of [--labels]. *)
Lemma amd_userdata_runner_label (fragment reg_token label : string) :
  Py.Contains (amd_userdata cfg fragment reg_token label)
    (" --labels " +:+ label +:+ " --ephemeral").
Proof.
  unfold amd_userdata.
  change " --ephemeral --unattended" with (" --ephemeral" +:+ " --unattended").
  repeat first
    [ solve [ eexists EmptyString, _;
              rewrite append_nil_l, !append_assoc; reflexivity ]
    | apply contains_app_r ].
Qed.

Lemma amd_userdata_not_empty (fragment reg_token label : string) :
  amd_userdata cfg fragment reg_token label <> EmptyString.
Proof. unfold amd_userdata. rewrite append_cons. discriminate. Qed.

End BootScripts.

(** ** The registration token *)

(** The reasons for which the fetch fails: the request raises (network
    error), the body is not JSON or not an object (malformed response), or
    it is an object without a token (bad credentials). *)
Lemma fetch_fails_network (cfg : config) (w : world) (e : exn) :
  requests_post w (regtoken_url cfg) (regtoken_headers cfg) = inl e ->
  fetch_fails cfg w.
Proof.
  intros H. exists e. unfold fetch_regtoken, mbind, M_bind, answer. simpl.
  now rewrite H.
Qed.

Lemma fetch_fails_not_json (cfg : config) (w : world) (r : response) (e : exn) :
  requests_post w (regtoken_url cfg) (regtoken_headers cfg) = inr r ->
  json r = inl e ->
  fetch_fails cfg w.
Proof.
  intros H J. exists e. unfold fetch_regtoken, mbind, M_bind, answer. simpl.
  now rewrite H, J.
Qed.

Lemma fetch_fails_not_object (cfg : config) (w : world) (r : response) :
  requests_post w (regtoken_url cfg) (regtoken_headers cfg) = inr r ->
  json r = inr JNonObject ->
  fetch_fails cfg w.
Proof.
  intros H J. eexists. unfold fetch_regtoken, mbind, M_bind, answer. simpl.
  rewrite H, J. reflexivity.
Qed.

Lemma fetch_fails_no_token (cfg : config) (w : world) (r : response)
    (d : gmap string pyobj) :
  requests_post w (regtoken_url cfg) (regtoken_headers cfg) = inr r ->
  json r = inr (JObject d) ->
  d !! "token" = None ->
  fetch_fails cfg w.
Proof.
  intros H J K. eexists. unfold fetch_regtoken, mbind, M_bind, answer. simpl.
  rewrite H, J. simpl. rewrite K. reflexivity.
Qed.

(** C3.  When the registration-token fetch of a [start] past the start-up (the variables read, the client built)
    fails, for whatever reason, the script prints the fixed error message and exits
    with status 1, and no instance-creation call has been made. *)
Theorem regtoken_failure_exits (w : world) (cfg : config) :
  configured w cfg ->
  client_ready w cfg ->
  action cfg = "start" ->
  fetch_fails cfg w ->
  trace w = [EvPost (regtoken_url cfg) (regtoken_headers cfg);
             EvPrint (PStr "ERROR: Unable to get GHA self-hosted registration token")]
  /\ result w = Raised (SystemExit 1)
  /\ exit_status (result w) = 1%Z
  /\ creations (trace w) = [].
Proof.
  intros Hc Hcl Ha Hf. unfold trace, result.
  rewrite (run_configured _ _ Hc Hcl), (dispatch_start _ _ Ha),
    (start_fetch_fails _ _ Hf).
  repeat split.
Qed.

Lemma regtoken_failure_exits_witness :
  result world_bad_credentials = Raised (SystemExit 1)
  /\ creations (trace world_bad_credentials) = [].
Proof.
  destruct (regtoken_failure_exits world_bad_credentials (cfg0 "start" "buildx"))
    as (_ & R & _ & C).
  - vm_compute. reflexivity.
  - reflexivity.
  - reflexivity.
  - eexists. vm_compute. reflexivity.
  - split; [exact R | exact C].
Defined.

(** ** Launching the instances *)

(** C8.  Every call of [create_instance] issues exactly one creation
    request, for the image, size and boot script it is given; the request
    asks for exactly one instance ([MinCount = MaxCount = 1]), with one
    30 GB volume on the root device that is deleted on termination, in the
    configured subnet and security group, tagged [Name = label], monitoring
    disabled.  The answer of the provider is handed back as it is. *)
Theorem create_instance_request (cfg : config) (w : world)
    (ami instancetype label userdata : string) (t : list event) :
  exists req,
    create_instance cfg ami instancetype label userdata w t
    = (t ++ [EvRunInstances req],
       match ec2_run_instances w req with
       | inl e => Raised e
       | inr r => Returned r
       end)
    /\ ImageId req = ami
    /\ InstanceType req = instancetype
    /\ UserData req = userdata
    /\ MinCount req = 1%Z /\ MaxCount req = 1%Z
    /\ BlockDeviceMappings req
       = [ {| DeviceName := "/dev/xvda";
              Ebs := {| DeleteOnTermination := true; VolumeSize := 30;
                        VolumeType := "gp2" |} |} ]
    /\ SubnetId req = subnet cfg
    /\ SecurityGroupIds req = [securitygroup cfg]
    /\ TagSpecifications req
       = [ {| ResourceType := "instance";
              Tags := [ {| Key := "Name"; Value := label |} ] |} ]
    /\ name_tags req = [label]
    /\ MonitoringEnabled req = false.
Proof.
  exists (create_request cfg ami instancetype label userdata).
  split; [|repeat split].
  unfold create_instance, mbind, M_bind, emit, answer.
  now case_answer.
Qed.

(** C4.  A [start] past the start-up (the variables read, the client built)
    whose mode is not "buildx" and whose token fetch
    succeeds makes exactly one instance-creation call, and the boot script
    of that call contains the registration token the fetch returned and the
    generated label. *)
Theorem start_plain_creates_once (w : world) (cfg : config) (token : pyobj) :
  configured w cfg ->
  client_ready w cfg ->
  action cfg = "start" ->
  mode cfg <> "buildx" ->
  fetch_gives cfg w token ->
  exists req,
    creations (trace w) = [req]
    /\ Py.Contains (UserData req) (py_str token)
    /\ Py.Contains (UserData req) (label_of w).
Proof.
  intros Hc Hcl Ha Hm Hf. unfold trace.
  rewrite (run_configured _ _ Hc Hcl), (dispatch_start _ _ Ha),
    (start_plain _ _ _ Hf Hm).
  exists (amd_request cfg w token EmptyString). split; [reflexivity|].
  split; [apply amd_userdata_token | apply amd_userdata_label].
Qed.

Lemma start_plain_creates_once_witness :
  exists req,
    creations (trace (world0 "start" "single")) = [req]
    /\ Py.Contains (UserData req) "REGTOKEN"
    /\ Py.Contains (UserData req) (label_of (world0 "start" "single")).
Proof.
  apply (start_plain_creates_once (world0 "start" "single")
           (cfg0 "start" "single") (PyStr "REGTOKEN")).
  - vm_compute. reflexivity.
  - reflexivity.
  - reflexivity.
  - discriminate.
  - vm_compute. reflexivity.
Defined.

(** C5.  A [start] past the start-up (the variables read, the client built),
    in mode "buildx", whose token fetch succeeds and whose
    ARM launch reports an instance makes exactly two instance-creation
    calls, the ARM helper's and then the primary (AMD) instance's, and the
    boot script of the second contains the private IP address reported for
    the first. *)
Theorem start_buildx_creates_twice (w : world) (cfg : config) (token : pyobj)
    (i : instance) (rest : list instance) :
  configured w cfg ->
  client_ready w cfg ->
  action cfg = "start" ->
  mode cfg = "buildx" ->
  fetch_gives cfg w token ->
  ec2_run_instances w (arm_request cfg w) = inr {| Instances := i :: rest |} ->
  exists amd,
    creations (trace w) = [arm_request cfg w; amd]
    /\ ImageId amd = amd_ami cfg
    /\ Py.Contains (UserData amd) (PrivateIpAddress i).
Proof.
  intros Hc Hcl Ha Hm Hf Hr. unfold trace.
  rewrite (run_configured _ _ Hc Hcl), (dispatch_start _ _ Ha),
    (start_buildx_arm_ok _ _ _ _ _ Hf Hm Hr).
  exists (amd_request cfg w token (buildx_userdata (PrivateIpAddress i))).
  split; [reflexivity|]. split; [reflexivity|].
  eapply contains_trans; [apply amd_userdata_fragment | apply buildx_userdata_ip].
Qed.

Lemma start_buildx_creates_twice_witness :
  exists amd,
    creations (trace (world0 "start" "buildx"))
    = [arm_request (cfg0 "start" "buildx") (world0 "start" "buildx"); amd]
    /\ ImageId amd = "ami-amd"
    /\ Py.Contains (UserData amd) "10.0.0.7".
Proof.
  apply (start_buildx_creates_twice (world0 "start" "buildx")
           (cfg0 "start" "buildx") (PyStr "REGTOKEN")
           {| InstanceId := "i-0a"; PrivateIpAddress := "10.0.0.7" |} []).
  - vm_compute. reflexivity.
  - reflexivity.
  - reflexivity.
  - reflexivity.
  - vm_compute. reflexivity.
  - reflexivity.
Defined.

(** ** The label *)

Lemma label_of_not_empty (w : world) : label_of w <> EmptyString.
Proof.
  unfold label_of.
  destruct (uuid_str_head (uuid1 w)) as (d & rest & ->).
  destruct (split_first_nonempty "-" (hex_char d) rest (hex_char_not_dash d))
    as (piece & pieces & ->).
  discriminate.
Qed.

Lemma label_of_no_dash (w : world) : Py.lacks "-" (label_of w).
Proof.
  unfold label_of.
  now destruct (split_first_lacks "-" (uuid_str (uuid1 w)))
    as (piece & pieces & -> & L).
Qed.

Lemma name_tags_create_request (cfg : config)
    (ami instancetype label userdata : string) :
  name_tags (create_request cfg ami instancetype label userdata) = [label].
Proof. reflexivity. Qed.

(** C6.  In every [start] past the start-up (the variables read, the client built)
    the label [make_label] generates is a
    non-empty string with no "-" in it.  Once the token is fetched the
    script announces that label and passes it as the [Name] tag of every
    instance-creation call of the invocation: the one call outside "buildx"
    mode, and in "buildx" mode the ARM helper's call and, when that launch
    reports an instance, the primary instance's call.  The boot script of
    the primary (AMD) instance embeds the same string as the runner label,
    the value of [--labels].  No creation call carries another tag. *)
Theorem start_label_shared (w : world) (cfg : config) :
  configured w cfg ->
  client_ready w cfg ->
  action cfg = "start" ->
  (forall t, make_label w t = (t, Returned (label_of w)))
  /\ label_of w <> EmptyString
  /\ Py.lacks "-" (label_of w)
  /\ (forall req, In req (creations (trace w)) ->
        name_tags req = [label_of w]
        /\ (req = arm_request cfg w
            \/ (ImageId req = amd_ami cfg
                /\ InstanceType req = amd_instancetype cfg
                /\ Py.Contains (UserData req)
                     (" --labels " +:+ label_of w +:+ " --ephemeral"))))
  /\ (forall token, fetch_gives cfg w token ->
        In (EvPrint (PStr ("Creating instances with tag " +:+ label_of w)))
           (trace w)
        /\ (mode cfg <> "buildx" ->
            exists amd,
              creations (trace w) = [amd]
              /\ name_tags amd = [label_of w]
              /\ ImageId amd = amd_ami cfg
              /\ Py.Contains (UserData amd)
                   (" --labels " +:+ label_of w +:+ " --ephemeral"))
        /\ (mode cfg = "buildx" ->
            exists rest,
              creations (trace w) = arm_request cfg w :: rest
              /\ name_tags (arm_request cfg w) = [label_of w]
              /\ forall i others,
                   ec2_run_instances w (arm_request cfg w)
                   = inr {| Instances := i :: others |} ->
                   exists amd,
                     rest = [amd]
                     /\ name_tags amd = [label_of w]
                     /\ ImageId amd = amd_ami cfg
                     /\ Py.Contains (UserData amd)
                          (" --labels " +:+ label_of w +:+ " --ephemeral"))).
Proof.
  intros Hc Hcl Ha.
  split; [intros t; apply make_label_run|].
  split; [apply label_of_not_empty|]. split; [apply label_of_no_dash|].
  unfold trace. rewrite (run_configured _ _ Hc Hcl), (dispatch_start _ _ Ha).
  assert (forall token fragment,
             let req := amd_request cfg w token fragment in
             ImageId req = amd_ami cfg
             /\ InstanceType req = amd_instancetype cfg
             /\ Py.Contains (UserData req)
                  (" --labels " +:+ label_of w +:+ " --ephemeral")) as Hamd.
  { intros token fragment. repeat split. apply amd_userdata_runner_label. }
  assert (forall token fragment,
             exists amd,
               [amd_request cfg w token fragment] = [amd]
               /\ name_tags amd = [label_of w]
               /\ ImageId amd = amd_ami cfg
               /\ Py.Contains (UserData amd)
                    (" --labels " +:+ label_of w +:+ " --ephemeral")) as Hone.
  { intros token fragment. exists (amd_request cfg w token fragment).
    split; [reflexivity|]. split; [reflexivity|]. split; [reflexivity|].
    apply amd_userdata_runner_label. }
  destruct (start_cases cfg w)
    as [F|[(token & G & Hm)|[(token & e & G & Hm & R)|[(token & G & Hm & R)
        |(token & i & rest & G & Hm & R)]]]].
  - rewrite (start_fetch_fails _ _ F). split; [intros req []|].
    intros token G. destruct F as [e F]. unfold fetch_gives in G. congruence.
  - rewrite (start_plain _ _ _ G Hm). split.
    + intros req [<-|[]]. split; [reflexivity | right; apply Hamd].
    + intros token' _. split; [simpl; tauto|]. split; [|congruence].
      intros _. apply Hone.
  - rewrite (start_buildx_arm_raises _ _ _ _ G Hm R). split.
    + intros req [<-|[]]. split; [reflexivity | now left].
    + intros token' _. split; [simpl; tauto|]. split; [congruence|].
      intros _. exists []. split; [reflexivity|]. split; [reflexivity|].
      intros i others R'. congruence.
  - rewrite (start_buildx_arm_empty _ _ _ G Hm R). split.
    + intros req [<-|[]]. split; [reflexivity | now left].
    + intros token' _. split; [simpl; tauto|]. split; [congruence|].
      intros _. exists []. split; [reflexivity|]. split; [reflexivity|].
      intros i others R'. congruence.
  - rewrite (start_buildx_arm_ok _ _ _ _ _ G Hm R). split.
    + intros req [<-|[<-|[]]].
      * split; [reflexivity | now left].
      * split; [reflexivity | right; apply Hamd].
    + intros token' _. split; [simpl; tauto|]. split; [congruence|].
      intros _. eexists. split; [reflexivity|]. split; [reflexivity|].
      intros i' others _. apply Hone.
Qed.

Lemma start_label_shared_witness :
  (forall t, make_label (world0 "start" "buildx") t
             = (t, Returned (label_of (world0 "start" "buildx"))))
  /\ label_of (world0 "start" "buildx") <> EmptyString
  /\ Py.lacks "-" (label_of (world0 "start" "buildx"))
  /\ (forall req, In req (creations (trace (world0 "start" "buildx"))) ->
        name_tags req = [label_of (world0 "start" "buildx")]
        /\ (req = arm_request (cfg0 "start" "buildx") (world0 "start" "buildx")
            \/ (ImageId req = amd_ami (cfg0 "start" "buildx")
                /\ InstanceType req = amd_instancetype (cfg0 "start" "buildx")
                /\ Py.Contains (UserData req)
                     (" --labels " +:+ label_of (world0 "start" "buildx")
                      +:+ " --ephemeral"))))
  /\ (forall token,
        fetch_gives (cfg0 "start" "buildx") (world0 "start" "buildx") token ->
        In (EvPrint (PStr ("Creating instances with tag "
                           +:+ label_of (world0 "start" "buildx"))))
           (trace (world0 "start" "buildx"))
        /\ (mode (cfg0 "start" "buildx") <> "buildx" ->
            exists amd,
              creations (trace (world0 "start" "buildx")) = [amd]
              /\ name_tags amd = [label_of (world0 "start" "buildx")]
              /\ ImageId amd = amd_ami (cfg0 "start" "buildx")
              /\ Py.Contains (UserData amd)
                   (" --labels " +:+ label_of (world0 "start" "buildx")
                    +:+ " --ephemeral"))
        /\ (mode (cfg0 "start" "buildx") = "buildx" ->
            exists rest,
              creations (trace (world0 "start" "buildx"))
              = arm_request (cfg0 "start" "buildx") (world0 "start" "buildx")
                  :: rest
              /\ name_tags
                   (arm_request (cfg0 "start" "buildx") (world0 "start" "buildx"))
                 = [label_of (world0 "start" "buildx")]
              /\ forall i others,
                   ec2_run_instances (world0 "start" "buildx")
                     (arm_request (cfg0 "start" "buildx") (world0 "start" "buildx"))
                   = inr {| Instances := i :: others |} ->
                   exists amd,
                     rest = [amd]
                     /\ name_tags amd = [label_of (world0 "start" "buildx")]
                     /\ ImageId amd = amd_ami (cfg0 "start" "buildx")
                     /\ Py.Contains (UserData amd)
                          (" --labels " +:+ label_of (world0 "start" "buildx")
                           +:+ " --ephemeral"))).
Proof.
  apply (start_label_shared (world0 "start" "buildx") (cfg0 "start" "buildx")).
  - vm_compute. reflexivity.
  - reflexivity.
  - reflexivity.
Defined.

Example label_of_world0 : label_of (world0 "start" "buildx") = "6fa459ea".
Proof. vm_compute. reflexivity. Qed.

(** ** The order of the label output and the primary launch *)

Section Cuts.

Context {A : Type}.

Lemma cut_nil (x : A) (pre post : list A) : [] = pre ++ x :: post -> False.
Proof. destruct pre; discriminate. Qed.

Lemma cut_cons (a x : A) (l pre post : list A) :
  a :: l = pre ++ x :: post ->
  (pre = [] /\ a = x /\ l = post)
  \/ exists pre', pre = a :: pre' /\ l = pre' ++ x :: post.
Proof.
  destruct pre as [|b pre]; simpl; intros H; injection H as -> ->.
  - now left.
  - right. now exists pre.
Qed.

End Cuts.

(** A printed line that does not start with a colon is not the label
    output. *)
Lemma not_label_output (c : ascii) (s label : string) :
  c <> ":"%char -> EvPrint (PStr (String c s)) <> EvPrint (label_output label).
Proof.
  intros Hc H. unfold label_output in H. rewrite append_cons in H.
  injection H as -> _. now apply Hc.
Qed.

Ltac not_output E :=
  first
    [ discriminate E
    | exfalso; unfold regtoken_error in E;
      try rewrite append_cons in E;
      revert E; apply not_label_output; discriminate ].

Ltac cut_trace H :=
  repeat
    (apply cut_cons in H as [(-> & ? & <-)|(? & -> & H)];
     [ match goal with E : _ = EvPrint _ |- _ => try not_output E end | ]);
  try (now apply cut_nil in H).

(** C7 (amended).  In every [start], wherever the output line that emits
    the label stands in the trace, what follows it is the instance-creation
    call of the primary (AMD) instance and nothing else, and what
    precedes it holds no creation call but, in "buildx" mode, the ARM
    helper's: the line is produced immediately before the primary launch,
    not after it. *)
Theorem label_output_before_amd_creation (w : world) (cfg : config)
    (pre post : list event) :
  configured w cfg ->
  action cfg = "start" ->
  trace w = pre ++ EvPrint (label_output (label_of w)) :: post ->
  (exists token fragment,
      post = [EvRunInstances (amd_request cfg w token fragment)])
  /\ (creations pre = [] \/ creations pre = [arm_request cfg w]).
Proof.
  intros Hc Ha. unfold trace.
  destruct (run_dispatch_cases _ _ Hc) as [(e & _ & ->)|[_ ->]];
    [simpl; intros H; now apply cut_nil in H|].
  rewrite (dispatch_start _ _ Ha).
  destruct (start_cases cfg w)
    as [F|[(token & G & Hm)|[(token & e & G & Hm & R)|[(token & G & Hm & R)
        |(token & i & rest & G & Hm & R)]]]].
  - rewrite (start_fetch_fails _ _ F). simpl. intros H. cut_trace H.
  - rewrite (start_plain _ _ _ G Hm). simpl. intros H. cut_trace H.
    split; [eauto | now left].
  - rewrite (start_buildx_arm_raises _ _ _ _ G Hm R). simpl. intros H.
    cut_trace H.
  - rewrite (start_buildx_arm_empty _ _ _ G Hm R). simpl. intros H.
    cut_trace H.
  - rewrite (start_buildx_arm_ok _ _ _ _ _ G Hm R). simpl. intros H.
    cut_trace H.
    split; [eauto | now right].
Qed.

Lemma label_output_before_amd_creation_witness :
  (exists token fragment,
      [EvRunInstances
         (amd_request (cfg0 "start" "single") (world0 "start" "single")
            (PyStr "REGTOKEN") EmptyString)]
      = [EvRunInstances
           (amd_request (cfg0 "start" "single") (world0 "start" "single")
              token fragment)])
  /\ (creations
        [EvPost (regtoken_url (cfg0 "start" "single"))
           (regtoken_headers (cfg0 "start" "single"));
         EvPrint (PStr "Creating instances with tag 6fa459ea")] = []
      \/ creations
           [EvPost (regtoken_url (cfg0 "start" "single"))
              (regtoken_headers (cfg0 "start" "single"));
            EvPrint (PStr "Creating instances with tag 6fa459ea")]
         = [arm_request (cfg0 "start" "single") (world0 "start" "single")]).
Proof.
  apply (label_output_before_amd_creation (world0 "start" "single")
           (cfg0 "start" "single")).
  - vm_compute. reflexivity.
  - reflexivity.
  - vm_compute. reflexivity.
Defined.

(** C7 as stated fails: in a [start] outside "buildx" mode no creation
    call at all has been issued when the label is emitted. *)
Lemma label_output_after_amd_creation_fails :
  ~ (forall w cfg,
        configured w cfg -> action cfg = "start" ->
        label_output_after_amd_creation cfg w).
Proof.
  intros H.
  assert (configured (world0 "start" "single") (cfg0 "start" "single")) as Hc
    by (vm_compute; reflexivity).
  destruct (H _ _ Hc eq_refl
              [EvPost (regtoken_url (cfg0 "start" "single"))
                 (regtoken_headers (cfg0 "start" "single"));
               EvPrint (PStr "Creating instances with tag 6fa459ea")]
              [EvRunInstances
                 (amd_request (cfg0 "start" "single") (world0 "start" "single")
                    (PyStr "REGTOKEN") EmptyString)])
    as (req & [] & _).
  vm_compute. reflexivity.
Qed.

(** ** Stopping *)

(** C9.  In a [stop] past the start-up (the variables read, the client built)
    whose lookup answers, the first termination call is
    the dry run and carries exactly the instance IDs the lookup produced;
    the real call, issued unless the dry run is fatal, comes after it and
    carries the same list; there is no other termination call. *)
Theorem stop_dry_run_then_real (w : world) (cfg : config) (tag : string)
    (r : describe_response) :
  configured w cfg ->
  client_ready w cfg ->
  action cfg = "stop" ->
  environ w !! "INPUT_LABEL" = Some tag ->
  ec2_describe_instances w (label_filter tag) = inr r ->
  1 <= length (instance_ids r) ->
  terminations (trace w)
  = (instance_ids r, true)
      :: match dry_run_fatal (ec2_terminate_instances w (instance_ids r) true) with
         | Some _ => []
         | None => [(instance_ids r, false)]
         end.
Proof.
  intros Hc Hcl Ha Hl Hd _. unfold trace.
  rewrite (run_configured _ _ Hc Hcl), (dispatch_stop _ _ Ha),
    (stop_with_label _ _ Hl), (terminate_run _ _ _ Hd).
  destruct (dry_run_fatal _); [reflexivity|].
  destruct (ec2_terminate_instances w (instance_ids r) false) as [[]|[]];
    reflexivity.
Qed.

Lemma stop_dry_run_then_real_witness :
  terminations (trace (world0 "stop" "single"))
  = [(["i-0a"; "i-0b"], true); (["i-0a"; "i-0b"], false)].
Proof.
  apply (stop_dry_run_then_real (world0 "stop" "single") (cfg0 "stop" "single")
           "6fa459ea"
           {| Reservations :=
                [ {| Instances :=
                       [ {| InstanceId := "i-0a"; PrivateIpAddress := "10.0.0.7" |} ] |};
                  {| Instances :=
                       [ {| InstanceId := "i-0b"; PrivateIpAddress := "10.0.0.8" |} ] |} ] |}).
  - vm_compute. reflexivity.
  - reflexivity.
  - reflexivity.
  - vm_compute. reflexivity.
  - reflexivity.
  - simpl. lia.
Defined.

(** C2.  In a [stop] past the start-up (the variables read, the client built)
    whose dry-run termination call raises an error whose
    text does not contain "DryRunOperation", the real termination call is
    never made (the dry run is the only termination call) and that error
    propagates out of the script. *)
Theorem stop_dry_run_error_propagates (w : world) (cfg : config) (tag : string)
    (r : describe_response) (e : exn) :
  configured w cfg ->
  client_ready w cfg ->
  action cfg = "stop" ->
  environ w !! "INPUT_LABEL" = Some tag ->
  ec2_describe_instances w (label_filter tag) = inr r ->
  ec2_terminate_instances w (instance_ids r) true = inl e ->
  Py.py_in "DryRunOperation" (str_exn e) = false ->
  terminations (trace w) = [(instance_ids r, true)]
  /\ (forall ids, ~ In (ids, false) (terminations (trace w)))
  /\ result w = Raised e.
Proof.
  intros Hc Hcl Ha Hl Hd He Hm.
  assert (dry_run_fatal (ec2_terminate_instances w (instance_ids r) true)
          = Some e) as Hf.
  { rewrite He. destruct e as [text| |]; simpl in *; try reflexivity.
    unfold dry_run_marker. now rewrite Hm. }
  assert (run w =
          ([EvDescribeInstances (label_filter tag);
            EvPrint (PList (instance_ids r));
            EvTerminateInstances (instance_ids r) true], Raised e)) as Hr.
  { rewrite (run_configured _ _ Hc Hcl), (dispatch_stop _ _ Ha),
      (stop_with_label _ _ Hl), (terminate_run _ _ _ Hd).
    now rewrite Hf. }
  unfold trace, result. rewrite Hr. simpl.
  split; [reflexivity|]. split; [|reflexivity].
  intros ids [H|[]]. discriminate H.
Qed.

Lemma stop_dry_run_error_propagates_witness :
  terminations (trace world_unauthorized) = [(["i-0a"; "i-0b"], true)]
  /\ (forall ids, ~ In (ids, false) (terminations (trace world_unauthorized)))
  /\ result world_unauthorized
     = Raised (ClientError "An error occurred (UnauthorizedOperation) when calling the TerminateInstances operation: You are not authorized to perform this operation.").
Proof.
  apply (stop_dry_run_error_propagates world_unauthorized (cfg0 "stop" "single")
           "6fa459ea"
           {| Reservations :=
                [ {| Instances :=
                       [ {| InstanceId := "i-0a"; PrivateIpAddress := "10.0.0.7" |} ] |};
                  {| Instances :=
                       [ {| InstanceId := "i-0b"; PrivateIpAddress := "10.0.0.8" |} ] |} ] |}).
  - vm_compute. reflexivity.
  - reflexivity.
  - reflexivity.
  - vm_compute. reflexivity.
  - reflexivity.
  - reflexivity.
  - vm_compute. reflexivity.
Defined.

(** C1 as stated fails: the dry-run call is made even when the lookup
    finds nothing, and an answer to it that lacks the marker is raised. *)
Lemma stop_is_silent_fails :
  ~ (forall w cfg tag r,
        configured w cfg -> client_ready w cfg -> action cfg = "stop" ->
        environ w !! "INPUT_LABEL" = Some tag ->
        ec2_describe_instances w (label_filter tag) = inr r ->
        instance_ids r = [] ->
        stop_is_silent w).
Proof.
  intros H.
  assert (configured (world_no_instances true) (cfg0 "stop" "single")) as Hc
    by (vm_compute; reflexivity).
  assert (environ (world_no_instances true) !! "INPUT_LABEL" = Some "6fa459ea")
    as Hl by (vm_compute; reflexivity).
  destruct (H _ _ _ {| Reservations := [] |} Hc eq_refl eq_refl Hl eq_refl
              eq_refl) as [R _].
  vm_compute in R. discriminate R.
Qed.

Lemma dry_run_fatal_without_marker (e : exn) :
  Py.py_in "DryRunOperation" (str_exn e) = false ->
  dry_run_fatal (inl e) = Some e.
Proof.
  intros H. destruct e as [text|code|class text]; simpl in *; try reflexivity.
  unfold dry_run_marker. now rewrite H.
Qed.

(** C1 (amended).  In a [stop] past the start-up (the variables read, the client built)
    whose label matches no instance, the
    dry-run termination call is still made, with an empty list of IDs, and
    no termination call names an instance; the script completes without
    raising exactly when the dry run is not fatal (it returns, or raises a
    [ClientError] that carries the marker) and the real call, also made
    with an empty list, raises nothing but a [ClientError].  An error of
    the dry run whose text lacks the marker propagates out of the
    script. *)
Theorem stop_without_instances (w : world) (cfg : config) (tag : string)
    (r : describe_response) :
  configured w cfg ->
  client_ready w cfg ->
  action cfg = "stop" ->
  environ w !! "INPUT_LABEL" = Some tag ->
  ec2_describe_instances w (label_filter tag) = inr r ->
  instance_ids r = [] ->
  (forall ids dry_run, In (ids, dry_run) (terminations (trace w)) -> ids = [])
  /\ (exists rest, terminations (trace w) = ([], true) :: rest)
  /\ (result w = Returned tt
      <-> dry_run_fatal (ec2_terminate_instances w [] true) = None
          /\ forall e, ec2_terminate_instances w [] false = inl e ->
                       exists text, e = ClientError text)
  /\ (forall e,
        ec2_terminate_instances w [] true = inl e ->
        Py.py_in "DryRunOperation" (str_exn e) = false ->
        result w = Raised e /\ terminations (trace w) = [([], true)]).
Proof.
  intros Hc Hcl Ha Hl Hd Hi. unfold trace, result.
  rewrite (run_configured _ _ Hc Hcl), (dispatch_stop _ _ Ha),
    (stop_with_label _ _ Hl), (terminate_run _ _ _ Hd), Hi.
  assert (forall e,
             ec2_terminate_instances w [] true = inl e ->
             Py.py_in "DryRunOperation" (str_exn e) = false ->
             dry_run_fatal (ec2_terminate_instances w [] true) = Some e) as Hp.
  { intros e He Hm. rewrite He. now apply dry_run_fatal_without_marker. }
  destruct (dry_run_fatal (ec2_terminate_instances w [] true)) as [e|].
  - simpl. split; [|split; [|split]].
    + intros ids dry_run [H|[]]. now injection H.
    + now exists [].
    + split; [discriminate | intros [H _]; discriminate].
    + intros e' He Hm. specialize (Hp e' He Hm). injection Hp as ->.
      now split.
  - assert (forall e, ec2_terminate_instances w [] true = inl e ->
                      Py.py_in "DryRunOperation" (str_exn e) = false ->
                      False) as Hn.
    { intros e He Hm. specialize (Hp e He Hm). discriminate Hp. }
    destruct (ec2_terminate_instances w [] false) as [[text|code|class text]|[]];
      simpl; (split; [|split; [|split]]);
      try (intros ids dry_run [H|[H|[]]]; now injection H);
      try (now eexists);
      try (intros e He Hm; exfalso; now apply (Hn e)).
    + split; [intros _; split; [reflexivity|] | reflexivity].
      intros e H; injection H as <-; now eexists.
    + split; [discriminate|]. intros [_ H].
      destruct (H _ eq_refl) as [text H']. discriminate H'.
    + split; [discriminate|]. intros [_ H].
      destruct (H _ eq_refl) as [text' H']. discriminate H'.
Qed.

Lemma stop_without_instances_witness :
  (forall ids dry_run,
      In (ids, dry_run) (terminations (trace (world_no_instances true))) ->
      ids = [])
  /\ (exists rest,
         terminations (trace (world_no_instances true)) = ([], true) :: rest)
  /\ (result (world_no_instances true) = Returned tt
      <-> dry_run_fatal
            (ec2_terminate_instances (world_no_instances true) [] true) = None
          /\ forall e,
               ec2_terminate_instances (world_no_instances true) [] false
               = inl e ->
               exists text, e = ClientError text)
  /\ (forall e,
        ec2_terminate_instances (world_no_instances true) [] true = inl e ->
        Py.py_in "DryRunOperation" (str_exn e) = false ->
        result (world_no_instances true) = Raised e
        /\ terminations (trace (world_no_instances true)) = [([], true)]).
Proof.
  apply (stop_without_instances (world_no_instances true)
           (cfg0 "stop" "single") "6fa459ea" {| Reservations := [] |}).
  - vm_compute. reflexivity.
  - reflexivity.
  - reflexivity.
  - vm_compute. reflexivity.
  - reflexivity.
  - reflexivity.
Defined.

Example stop_without_instances_passes :
  run (world_no_instances false)
  = ([EvDescribeInstances [ {| Name := "tag:Name"; Values := ["6fa459ea"] |} ];
      EvPrint (PList []);
      EvTerminateInstances [] true;
      EvTerminateInstances [] false;
      EvPrint (PStr "Termination was successful")],
     Returned tt).
Proof. vm_compute. reflexivity. Qed.

(** ** Sample runs *)

Example run_stop_world0 :
  run (world0 "stop" "single")
  = ([EvDescribeInstances [ {| Name := "tag:Name"; Values := ["6fa459ea"] |} ];
      EvPrint (PList ["i-0a"; "i-0b"]);
      EvTerminateInstances ["i-0a"; "i-0b"] true;
      EvTerminateInstances ["i-0a"; "i-0b"] false;
      EvPrint (PStr "Termination was successful")],
     Returned tt).
Proof. vm_compute. reflexivity. Qed.

Example run_stop_refused :
  run (world_no_instances true)
  = ([EvDescribeInstances [ {| Name := "tag:Name"; Values := ["6fa459ea"] |} ];
      EvPrint (PList []);
      EvTerminateInstances [] true],
     Raised (ClientError "An error occurred (MissingParameter) when calling the TerminateInstances operation: The request must contain the parameter InstanceId")).
Proof. vm_compute. reflexivity. Qed.

Example trace_start_world0 :
  map (fun e => match e with
                | EvPost _ _ => "post"
                | EvRunInstances req => "run_instances " +:+ ImageId req
                | EvDescribeInstances _ => "describe_instances"
                | EvTerminateInstances _ _ => "terminate_instances"
                | EvPrint (PStr s) => substring 0 12 s
                | EvPrint (PList _) => "print list"
                | EvSleep _ => "sleep"
                end)
    (trace (world0 "start" "buildx"))
  = ["post"; "Creating ins"; "run_instances ami-arm"; "Started ARM "; "Sleeping for";
     "sleep"; "::set-output"; "run_instances ami-amd"].
Proof. vm_compute. reflexivity. Qed.

Example exit_status_bad_credentials :
  exit_status (result world_bad_credentials) = 1%Z.
Proof. vm_compute. reflexivity. Qed.

Example uuid_str_example :
  uuid_str 0x6fa459eaee8a11ec8ea00242ac120002%N
  = "6fa459ea-ee8a-11ec-8ea0-0242ac120002".
Proof. vm_compute. reflexivity. Qed.

Example split_example :
  Py.split "-" "6fa459ea-ee8a-11ec--x" = ["6fa459ea"; "ee8a"; "11ec"; EmptyString; "x"].
Proof. reflexivity. Qed.

Example strip_example :
  Py.strip (" ghp_a b" +:+ Py.nl) = "ghp_a b".
Proof. reflexivity. Qed.

(** * Further properties of the script *)

(** ** Start-up: the environment variables *)

Ltac case_lookups w :=
  repeat match goal with
         | |- context [environ w !! ?k] =>
             let E := fresh "E" in destruct (environ w !! k) eqn:E
         end.

(** Reading the configuration has no effect; it returns when each of the
    eleven variables is set and otherwise raises the [KeyError] of a
    variable that is not. *)
Lemma read_config_run (w : world) (t : list event) :
  (exists cfg, read_config w t = (t, Returned cfg)
               /\ forall k, In k required_variables -> is_Some (environ w !! k))
  \/ (exists k, In k required_variables /\ environ w !! k = None
                /\ read_config w t = (t, Raised (key_error k))).
Proof.
  unfold read_config, mbind, M_bind, getenv, key_error.
  case_lookups w;
    try (right; eexists; split; [|split; [eassumption|reflexivity]];
         simpl; tauto).
  left. eexists. split; [reflexivity|].
  intros k Hk. simpl in Hk.
  repeat (destruct Hk as [<-|Hk]; [eauto|]). destruct Hk.
Qed.

Lemma run_cases (w : world) :
  (exists cfg, configured w cfg)
  \/ (exists k, In k required_variables /\ environ w !! k = None
                /\ run w = ([], Raised (key_error k))).
Proof.
  destruct (read_config_run w []) as [(cfg & H & _)|(k & Hk & Hn & H)].
  - left. now exists cfg.
  - right. exists k. split; [exact Hk|]. split; [exact Hn|].
    unfold run, main, mbind, M_bind. now rewrite H.
Qed.

Lemma configured_action (w : world) (cfg : config) :
  configured w cfg -> environ w !! "INPUT_ACTION" = Some (action cfg).
Proof.
  unfold configured, read_config, mbind, M_bind, getenv.
  case_lookups w; try discriminate.
  intros H. injection H as <-. reflexivity.
Qed.

(** ** The action dispatch *)

(** C10 as stated fails: with an action that is neither "start" nor "stop"
    and a region for which no client can be built, the script raises at
    line 36 and the exit status is 1. *)
Lemma other_action_is_silent_fails :
  ~ (forall w a,
        environ w !! "INPUT_ACTION" = Some a ->
        a <> "start" -> a <> "stop" ->
        other_action_is_silent w).
Proof.
  intros H.
  assert (environ (world_bad_region "restart") !! "INPUT_ACTION" = Some "restart")
    as Ha by (vm_compute; reflexivity).
  assert ("restart" <> "start") as H1 by discriminate.
  assert ("restart" <> "stop") as H2 by discriminate.
  destruct (H _ _ Ha H1 H2) as (_ & _ & _ & R & _).
  vm_compute in R. discriminate R.
Qed.

(** C10 (amended).  For every action value other than "start" and "stop"
    the script makes no REST call, no instance-creation call and no
    termination call: the trace is empty.  It ends normally, with exit
    status 0, when every variable read at start-up is set and the client
    is built for the region; otherwise the start-up raises, the [KeyError]
    of a variable that is not set or the error of the client
    construction. *)
Theorem other_action_does_nothing (w : world) (a : string) :
  environ w !! "INPUT_ACTION" = Some a ->
  a <> "start" ->
  a <> "stop" ->
  trace w = []
  /\ posts (trace w) = []
  /\ creations (trace w) = []
  /\ terminations (trace w) = []
  /\ ((exists cfg, configured w cfg /\ client_ready w cfg
                   /\ result w = Returned tt
                   /\ exit_status (result w) = 0%Z)
      \/ (exists k, In k required_variables /\ environ w !! k = None
                    /\ result w = Raised (key_error k))
      \/ (exists cfg e, configured w cfg
                        /\ boto3_client w (region cfg) = inl e
                        /\ result w = Raised e)).
Proof.
  intros Ha H1 H2. unfold trace, result.
  destruct (run_cases w) as [[cfg Hc]|(k & Hk & Hn & ->)].
  - assert (action cfg = a) as E.
    { apply configured_action in Hc. congruence. }
    subst a.
    destruct (run_dispatch_cases _ _ Hc) as [(e & He & ->)|[Hr ->]].
    + simpl. repeat split. right; right. now exists cfg, e.
    + rewrite (dispatch_other _ _ H1 H2). simpl. repeat split.
      left. now exists cfg.
  - simpl. repeat split. right; left. now exists k.
Qed.

Lemma other_action_does_nothing_witness :
  trace (world0 "restart" "buildx") = []
  /\ posts (trace (world0 "restart" "buildx")) = []
  /\ creations (trace (world0 "restart" "buildx")) = []
  /\ terminations (trace (world0 "restart" "buildx")) = []
  /\ ((exists cfg, configured (world0 "restart" "buildx") cfg
                   /\ client_ready (world0 "restart" "buildx") cfg
                   /\ result (world0 "restart" "buildx") = Returned tt
                   /\ exit_status (result (world0 "restart" "buildx")) = 0%Z)
      \/ (exists k, In k required_variables
                    /\ environ (world0 "restart" "buildx") !! k = None
                    /\ result (world0 "restart" "buildx") = Raised (key_error k))
      \/ (exists cfg e, configured (world0 "restart" "buildx") cfg
                        /\ boto3_client (world0 "restart" "buildx") (region cfg)
                           = inl e
                        /\ result (world0 "restart" "buildx") = Raised e)).
Proof.
  apply (other_action_does_nothing (world0 "restart" "buildx") "restart").
  - vm_compute. reflexivity.
  - discriminate.
  - discriminate.
Defined.

Example other_action_ready :
  configured (world0 "restart" "buildx") (cfg0 "restart" "buildx")
  /\ client_ready (world0 "restart" "buildx") (cfg0 "restart" "buildx")
  /\ run (world0 "restart" "buildx") = ([], Returned tt).
Proof. vm_compute. repeat split. Qed.

Example other_action_bad_region :
  run (world_bad_region "restart")
  = ([], Raised (OtherError "InvalidRegionError"
                   "Provided region_name 'us east!' doesn't match a supported format.")).
Proof. vm_compute. reflexivity. Qed.

(** X1.  When one of the eleven variables read at start-up is not set, the
    script raises a [KeyError] for a variable that is not set and exits
    with status 1 without any effect, whatever the action. *)
Theorem missing_variable_raises (w : world) (k : string) :
  In k required_variables ->
  environ w !! k = None ->
  trace w = []
  /\ exit_status (result w) = 1%Z
  /\ exists k', In k' required_variables /\ environ w !! k' = None
                /\ result w = Raised (key_error k').
Proof.
  intros Hk Hn. unfold trace, result.
  destruct (read_config_run w []) as [(cfg & _ & H)|(k' & Hk' & Hn' & H)].
  - destruct (H k Hk) as [v Hv]. congruence.
  - unfold run, main, mbind, M_bind. rewrite H. simpl.
    split; [reflexivity|]. split; [reflexivity|]. now exists k'.
Qed.

Lemma missing_variable_raises_witness :
  trace (with_environ (delete "INPUT_MODE" (env0 "stop" "single"))
           (world0 "stop" "single")) = []
  /\ exit_status
       (result (with_environ (delete "INPUT_MODE" (env0 "stop" "single"))
                  (world0 "stop" "single"))) = 1%Z
  /\ exists k', In k' required_variables
                /\ environ (with_environ (delete "INPUT_MODE" (env0 "stop" "single"))
                              (world0 "stop" "single")) !! k' = None
                /\ result (with_environ (delete "INPUT_MODE" (env0 "stop" "single"))
                             (world0 "stop" "single"))
                   = Raised (key_error k').
Proof.
  apply (missing_variable_raises
           (with_environ (delete "INPUT_MODE" (env0 "stop" "single"))
              (world0 "stop" "single")) "INPUT_MODE").
  - simpl. tauto.
  - vm_compute. reflexivity.
Defined.

(** [read_config] returns the configuration [cfg] exactly when each of the
    eleven variables is set, to the value [cfg] holds for it. *)
Lemma configured_iff_variables_set (w : world) (cfg : config) :
  configured w cfg
  <-> environ w !! "INPUT_ACTION" = Some (action cfg)
      /\ environ w !! "INPUT_AMD_AMI_ID" = Some (amd_ami cfg)
      /\ environ w !! "INPUT_AMD_INSTANCE_TYPE" = Some (amd_instancetype cfg)
      /\ environ w !! "INPUT_ARM_AMI_ID" = Some (arm_ami cfg)
      /\ environ w !! "INPUT_ARM_INSTANCE_TYPE" = Some (arm_instancetype cfg)
      /\ environ w !! "INPUT_GH_PERSONAL_ACCESS_TOKEN" = Some (github_pat cfg)
      /\ environ w !! "INPUT_MODE" = Some (mode cfg)
      /\ environ w !! "AWS_REGION" = Some (region cfg)
      /\ environ w !! "GITHUB_REPOSITORY" = Some (repo cfg)
      /\ environ w !! "INPUT_SECURITY_GROUP_ID" = Some (securitygroup cfg)
      /\ environ w !! "INPUT_SUBNET" = Some (subnet cfg).
Proof.
  unfold configured, read_config, mbind, M_bind, getenv.
  case_lookups w; (split; [intros H | intros H; decompose [and] H; clear H]);
    try discriminate.
  - injection H as <-. repeat split.
  - destruct cfg; simpl in *.
    repeat match goal with
           | E : Some _ = Some _ |- _ => injection E as ->
           end.
    reflexivity.
Qed.

(** X3.  A [stop] past the start-up (the variables read, the client built)
    without the variable [INPUT_LABEL] raises the
    [KeyError] of that variable and exits with status 1 before any request
    is made. *)
Theorem stop_without_label_raises (w : world) (cfg : config) :
  configured w cfg ->
  client_ready w cfg ->
  action cfg = "stop" ->
  environ w !! "INPUT_LABEL" = None ->
  trace w = []
  /\ result w = Raised (key_error "INPUT_LABEL")
  /\ exit_status (result w) = 1%Z.
Proof.
  intros Hc Hcl Ha Hl. unfold trace, result.
  rewrite (run_configured _ _ Hc Hcl), (dispatch_stop _ _ Ha),
    (stop_without_label _ Hl).
  repeat split.
Qed.

Lemma stop_without_label_raises_witness :
  trace (with_environ (delete "INPUT_LABEL" (env0 "stop" "single"))
           (world0 "stop" "single")) = []
  /\ result (with_environ (delete "INPUT_LABEL" (env0 "stop" "single"))
               (world0 "stop" "single"))
     = Raised (key_error "INPUT_LABEL")
  /\ exit_status
       (result (with_environ (delete "INPUT_LABEL" (env0 "stop" "single"))
                  (world0 "stop" "single"))) = 1%Z.
Proof.
  apply (stop_without_label_raises
           (with_environ (delete "INPUT_LABEL" (env0 "stop" "single"))
              (world0 "stop" "single"))
           (cfg0 "stop" "single")).
  - vm_compute. reflexivity.
  - reflexivity.
  - reflexivity.
  - vm_compute. reflexivity.
Defined.

(** ** The label, digit by digit *)

Lemma split_at_sep (sep : ascii) (a b : string) :
  Py.lacks sep a -> Py.split sep (a +:+ String sep b) = a :: Py.split sep b.
Proof.
  induction a as [|x a IH]; intros L.
  - rewrite append_nil_l. simpl. now rewrite Ascii.eqb_refl.
  - destruct L as [Hx L]. rewrite append_cons. simpl.
    destruct (Ascii.eqb_spec x sep) as [->|_]; [congruence|].
    now rewrite (IH L).
Qed.

Lemma hex_char_is_hex (d : N) : is_hex_digit (hex_char d) = true.
Proof.
  destruct d as [|p]; [reflexivity|].
  do 5 (try destruct p as [p|p|]); reflexivity.
Qed.

Lemma is_hex_digit_not_dash (c : ascii) : is_hex_digit c = true -> c <> "-"%char.
Proof. intros H ->. discriminate H. Qed.

Lemma all_hex_lacks_dash (s : string) :
  all_chars is_hex_digit s = true -> Py.lacks "-" s.
Proof.
  induction s as [|c s IH]; simpl; [easy|].
  intros H. apply andb_prop in H as [Hc Hs].
  split; [now apply is_hex_digit_not_dash | now apply IH].
Qed.

Lemma hex_digits_all_hex (k : nat) (n : N) (acc : string) :
  all_chars is_hex_digit acc = true ->
  all_chars is_hex_digit (hex_digits k n acc) = true.
Proof.
  revert n acc; induction k as [|k IH]; intros n acc H; simpl; [exact H|].
  apply IH. simpl. now rewrite hex_char_is_hex.
Qed.

Lemma hex_digits_length (k : nat) (n : N) (acc : string) :
  String.length (hex_digits k n acc) = k + String.length acc.
Proof.
  revert n acc; induction k as [|k IH]; intros n acc; simpl; [reflexivity|].
  rewrite IH. simpl. lia.
Qed.

(** The digits are put in front of [acc], and [k + j] digits are the [j]
    digits above the [k] low ones, then these. *)
Lemma hex_digits_acc (k : nat) (n : N) (acc : string) :
  hex_digits k n acc = hex_digits k n EmptyString +:+ acc.
Proof.
  revert n acc; induction k as [|k IH]; intros n acc; simpl; [reflexivity|].
  rewrite (IH _ (String _ acc)), (IH _ (String _ EmptyString)).
  now rewrite append_assoc.
Qed.

Lemma hex_digits_add (k j : nat) (n : N) (acc : string) :
  hex_digits (k + j) n acc
  = hex_digits j (n / 16 ^ N.of_nat k)%N (hex_digits k n acc).
Proof.
  revert n acc; induction k as [|k IH]; intros n acc.
  - simpl. now rewrite N.div_1_r.
  - change (hex_digits (S k + j) n acc)
      with (hex_digits (k + j) (n / 16)%N (String (hex_char (n mod 16)%N) acc)).
    rewrite IH. simpl hex_digits. f_equal.
    rewrite Nat2N.inj_succ, N.pow_succ_r', N.Div0.div_div. reflexivity.
Qed.

Lemma substring_prefix (a b : string) :
  substring 0 (String.length a) (a +:+ b) = a.
Proof.
  induction a as [|x a IH].
  - simpl. now destruct b.
  - rewrite append_cons. simpl. now rewrite IH.
Qed.

(** X4.  The label [make_label] gives is the text of the eight
    hexadecimal digits of bits 96 to 127 of the generated UUID: eight
    characters, each a digit or a letter from a to f. *)
Theorem label_is_eight_hex_digits (w : world) :
  label_of w = hex_digits 8 (uuid1 w / 2 ^ 96)%N EmptyString
  /\ String.length (label_of w) = 8
  /\ all_chars is_hex_digit (label_of w) = true
  /\ forall t, make_label w t = (t, Returned (label_of w)).
Proof.
  assert (label_of w = hex_digits 8 (uuid1 w / 2 ^ 96)%N EmptyString) as E.
  { unfold label_of, uuid_str. cbv zeta.
    change 32 with (24 + 8). rewrite hex_digits_add, hex_digits_acc.
    change (16 ^ N.of_nat 24)%N with (2 ^ 96)%N.
    generalize (hex_digits_length 8 (uuid1 w / 2 ^ 96)%N EmptyString).
    generalize (hex_digits_all_hex 8 (uuid1 w / 2 ^ 96)%N EmptyString eq_refl).
    generalize (hex_digits 8 (uuid1 w / 2 ^ 96)%N EmptyString) as hi.
    generalize (hex_digits 24 (uuid1 w) EmptyString) as lo.
    intros lo hi Hh Hl.
    simpl in Hl.
    rewrite <- Hl at 1. rewrite substring_prefix.
    set (rest := substring 8 4 (hi +:+ lo) +:+ _).
    change ("-" +:+ rest) with (String "-" rest).
    rewrite split_at_sep by now apply all_hex_lacks_dash.
    reflexivity. }
  split; [exact E|]. rewrite E.
  split; [now rewrite hex_digits_length|].
  split; [now apply hex_digits_all_hex|].
  intros t. rewrite <- E. apply make_label_run.
Qed.

Example label_is_eight_hex_digits_example :
  hex_digits 8 (0x6fa459eaee8a11ec8ea00242ac120002 / 2 ^ 96)%N EmptyString
  = "6fa459ea".
Proof. vm_compute. reflexivity. Qed.

(** ** The registration-token request *)

(** X5.  [get_regtoken] makes exactly one request, a POST to the
    registration-token address of the configured repository, and never lets
    an exception of the request or of the decoding escape: it returns the
    token, or it prints the fixed message and raises [SystemExit(1)]. *)
Theorem get_regtoken_outcome (cfg : config) (w : world) (t : list event) :
  let post :=
    EvPost ("https://api.github.com/repos/" +:+ repo cfg +:+
            "/actions/runners/registration-token")
           [("Authorization", "token " +:+ Py.strip (github_pat cfg))] in
  (exists token, get_regtoken cfg w t = (t ++ [post], Returned token))
  \/ get_regtoken cfg w t
     = (t ++ [post; EvPrint (PStr regtoken_error)], Raised (SystemExit 1)).
Proof.
  intros post.
  destruct (fetch_fails_or_gives cfg w) as [F|[token G]].
  - right. apply (get_regtoken_fails _ _ _ F).
  - left. exists token. apply (get_regtoken_gives _ _ _ _ G).
Qed.

(** X6.  The fetch gives a token exactly when the request returns a
    response whose body decodes to a JSON object with the key "token"; the
    value under the key is handed back as it is, whatever its type. *)
Theorem fetch_gives_iff (cfg : config) (w : world) (token : pyobj) :
  fetch_gives cfg w token
  <-> exists r d,
        requests_post w (regtoken_url cfg) (regtoken_headers cfg) = inr r
        /\ json r = inr (JObject d)
        /\ d !! "token" = Some token.
Proof.
  unfold fetch_gives, fetch_regtoken, mbind, M_bind, emit, answer. simpl.
  destruct (requests_post w _ _) as [e|r]; simpl.
  - split; [discriminate | intros (r & d & H & _); discriminate].
  - destruct (json r) as [e|[d|]] eqn:J; simpl.
    + split; [discriminate|]. intros (r' & d & H & J' & _).
      injection H as <-. congruence.
    + destruct (d !! "token") as [v|] eqn:K; simpl.
      * split.
        -- intros H. injection H as <-. now exists r, d.
        -- intros (r' & d' & H & J' & K'). injection H as <-.
           rewrite J in J'. injection J' as <-. congruence.
      * split; [discriminate|]. intros (r' & d' & H & J' & K').
        injection H as <-. rewrite J in J'. injection J' as <-. congruence.
    + split; [discriminate|]. intros (r' & d & H & J' & _).
      injection H as <-. congruence.
Qed.

(** A continuation byte of UTF-8: no white-space character starts with
    one, and the second and third bytes of one are such bytes. *)
Ltac to_props :=
  repeat first
    [ rewrite andb_true_iff in * | rewrite orb_true_iff in *
    | rewrite N.eqb_eq in * | rewrite N.leb_le in * | rewrite N.ltb_lt in * ].

Lemma space2_continuation (a f : ascii) :
  Py.space2 a f = true -> (128 <= Py.code f < 192)%N.
Proof. unfold Py.space2. intros H. to_props. lia. Qed.

Lemma space3_continuation (a f g : ascii) :
  Py.space3 a f g = true ->
  (128 <= Py.code f < 192)%N /\ (128 <= Py.code g < 192)%N.
Proof. unfold Py.space3. intros H. to_props. lia. Qed.

Lemma lstrip_head (f : ascii) (ws : string) :
  Py.lstrip (String f ws) = EmptyString ->
  ~ (128 <= Py.code f < 192)%N.
Proof.
  cbn [Py.lstrip]. destruct (Py.space1 f) eqn:S1.
  - intros _. unfold Py.space1 in S1. to_props. lia.
  - destruct ws as [|b ws]; [discriminate|].
    destruct (Py.space2 f b) eqn:S2.
    + intros _. unfold Py.space2 in S2. to_props. lia.
    + destruct ws as [|c ws]; [discriminate|].
      destruct (Py.space3 f b c) eqn:S3; [|discriminate].
      intros _. unfold Py.space3 in S3. to_props. lia.
Qed.

(** White space in front of a text is dropped with it. *)
Lemma lstrip_spaces_bounded (n : nat) (ws x : string) :
  String.length ws <= n ->
  Py.lstrip ws = EmptyString -> Py.lstrip (ws +:+ x) = Py.lstrip x.
Proof.
  revert ws; induction n as [|n IH]; intros ws Hn.
  - destruct ws; [reflexivity | simpl in Hn; lia].
  - destruct ws as [|a ws]; [reflexivity|]. simpl in Hn.
    rewrite append_cons. cbn [Py.lstrip].
    destruct (Py.space1 a); [apply IH; lia|].
    destruct ws as [|b ws]; [discriminate|]. simpl in Hn.
    rewrite append_cons.
    destruct (Py.space2 a b); [apply IH; lia|].
    destruct ws as [|c ws]; [discriminate|]. simpl in Hn.
    rewrite append_cons.
    destruct (Py.space3 a b c); [apply IH; lia | discriminate].
Qed.

Lemma lstrip_spaces (ws x : string) :
  Py.lstrip ws = EmptyString -> Py.lstrip (ws +:+ x) = Py.lstrip x.
Proof. now apply (lstrip_spaces_bounded (String.length ws)). Qed.

(** White space behind a text stays behind what is left of it. *)
Lemma lstrip_before_spaces_bounded (n : nat) (x ws : string) :
  String.length x <= n ->
  Py.lstrip ws = EmptyString ->
  Py.lstrip (x +:+ ws)
  = match Py.lstrip x with
    | EmptyString => EmptyString
    | String a r => String a r +:+ ws
    end.
Proof.
  intros Hn Hw. revert x Hn; induction n as [|n IH]; intros x Hn.
  - destruct x; [exact Hw | simpl in Hn; lia].
  - destruct x as [|a x]; [exact Hw|]. simpl in Hn.
    rewrite append_cons. cbn [Py.lstrip].
    destruct (Py.space1 a); [apply IH; lia|].
    destruct x as [|b x].
    { rewrite append_nil_l. destruct ws as [|f ws]; [reflexivity|].
      destruct (Py.space2 a f) eqn:S2.
      { apply space2_continuation in S2. now apply lstrip_head in Hw. }
      destruct ws as [|g ws]; [reflexivity|].
      destruct (Py.space3 a f g) eqn:S3; [|reflexivity].
      apply space3_continuation in S3 as [S3 _]. now apply lstrip_head in Hw. }
    simpl in Hn. rewrite append_cons.
    destruct (Py.space2 a b); [apply IH; lia|].
    destruct x as [|c x].
    { rewrite append_nil_l. destruct ws as [|f ws]; [reflexivity|].
      destruct (Py.space3 a b f) eqn:S3; [|reflexivity].
      apply space3_continuation in S3 as [_ S3]. now apply lstrip_head in Hw. }
    simpl in Hn. rewrite append_cons.
    destruct (Py.space3 a b c); [apply IH; lia | reflexivity].
Qed.

Lemma lstrip_before_spaces (x ws : string) :
  Py.lstrip ws = EmptyString ->
  Py.lstrip (x +:+ ws)
  = match Py.lstrip x with
    | EmptyString => EmptyString
    | String a r => String a r +:+ ws
    end.
Proof. now apply (lstrip_before_spaces_bounded (String.length x)). Qed.

Lemma all_space_spec (s : string) :
  Py.all_space s = true <-> Py.lstrip s = EmptyString.
Proof. unfold Py.all_space. destruct (Py.lstrip s); easy. Qed.

Lemma all_space_before_spaces (x ws : string) :
  Py.all_space ws = true -> Py.all_space (x +:+ ws) = Py.all_space x.
Proof.
  intros H. apply all_space_spec in H. unfold Py.all_space.
  rewrite (lstrip_before_spaces _ _ H). destruct (Py.lstrip x); reflexivity.
Qed.

Lemma rstrip_spaces (x ws : string) :
  Py.all_space ws = true -> Py.rstrip (x +:+ ws) = Py.rstrip x.
Proof.
  intros H. induction x as [|a x IH].
  - rewrite append_nil_l. destruct ws as [|f ws]; [reflexivity|].
    cbn [Py.rstrip]. now rewrite H.
  - rewrite append_cons. cbn [Py.rstrip].
    change (String a (x +:+ ws)) with (String a x +:+ ws).
    rewrite (all_space_before_spaces _ _ H), IH. reflexivity.
Qed.

Lemma strip_spaces (ws1 s ws2 : string) :
  Py.all_space ws1 = true ->
  Py.all_space ws2 = true ->
  Py.strip (ws1 +:+ s +:+ ws2) = Py.strip s.
Proof.
  intros H1 H2. unfold Py.strip.
  apply all_space_spec in H1. rewrite (lstrip_spaces _ _ H1).
  pose proof H2 as H2'. apply all_space_spec in H2'.
  rewrite (lstrip_before_spaces _ _ H2').
  destruct (Py.lstrip s) as [|a r]; [reflexivity|].
  now apply rstrip_spaces.
Qed.

(** X7.  White space around the personal access token (a trailing line
    feed or no-break space, say) does not reach the host: the request, its
    header and what follows from the answer are those of the bare
    token. *)
Theorem pat_whitespace_is_dropped (cfg : config) (w : world)
    (ws1 pat ws2 : string) (t : list event) :
  Py.all_space ws1 = true ->
  Py.all_space ws2 = true ->
  regtoken_headers (with_pat cfg (ws1 +:+ pat +:+ ws2))
  = regtoken_headers (with_pat cfg pat)
  /\ get_regtoken (with_pat cfg (ws1 +:+ pat +:+ ws2)) w t
     = get_regtoken (with_pat cfg pat) w t.
Proof.
  intros H1 H2.
  assert (regtoken_headers (with_pat cfg (ws1 +:+ pat +:+ ws2))
          = regtoken_headers (with_pat cfg pat)) as E.
  { unfold regtoken_headers. simpl. now rewrite (strip_spaces _ _ _ H1 H2). }
  split; [exact E|].
  unfold get_regtoken, fetch_regtoken. rewrite E. reflexivity.
Qed.

Lemma pat_whitespace_is_dropped_witness :
  regtoken_headers
    (with_pat (cfg0 "start" "single")
       (" " +:+ "ghp_pat" +:+ String "194" (String "160" Py.nl)))
  = regtoken_headers (with_pat (cfg0 "start" "single") "ghp_pat")
  /\ get_regtoken
       (with_pat (cfg0 "start" "single")
          (" " +:+ "ghp_pat" +:+ String "194" (String "160" Py.nl)))
       (world0 "start" "single") []
     = get_regtoken (with_pat (cfg0 "start" "single") "ghp_pat")
         (world0 "start" "single") [].
Proof.
  apply (pat_whitespace_is_dropped (cfg0 "start" "single")
           (world0 "start" "single") " " "ghp_pat"
           (String "194" (String "160" Py.nl)) []).
  - reflexivity.
  - reflexivity.
Defined.

Example strip_unicode_example :
  Py.strip (String "227" (String "128" (String "128" EmptyString))
            +:+ "ghp " +:+ String "195" (String "160" EmptyString)
            +:+ String "226" (String "128" (String "175" EmptyString))
            +:+ String "194" (String "133" EmptyString))
  = "ghp " +:+ String "195" (String "160" EmptyString).
Proof. vm_compute. reflexivity. Qed.

(** ** The boot script of the primary instance *)

Lemma amd_userdata_command (cfg : config) (fragment reg_token label : string) :
  Py.Contains (amd_userdata cfg fragment reg_token label)
    (config_command cfg reg_token label).
Proof.
  unfold amd_userdata, config_command.
  change "        RUNNER_ALLOW_RUNASROOT=1 ./config.sh --url https://github.com/"
    with ("        " +:+
          "RUNNER_ALLOW_RUNASROOT=1 ./config.sh --url https://github.com/").
  rewrite !append_assoc.
  repeat first
    [ solve [ eexists EmptyString, _;
              rewrite append_nil_l, !append_assoc; reflexivity ]
    | apply contains_app_r ].
Qed.

Lemma amd_userdata_shebang (cfg : config) (fragment reg_token label : string) :
  Py.startswith ("#!/bin/bash" +:+ Py.nl)
    (amd_userdata cfg fragment reg_token label) = true.
Proof.
  apply startswith_spec. eexists. unfold amd_userdata.
  rewrite append_assoc. reflexivity.
Qed.

Lemma arm_request_not_amd_request (cfg : config) (w : world) (token : pyobj)
    (fragment : string) :
  arm_request cfg w <> amd_request cfg w token fragment.
Proof.
  intros H. apply (f_equal UserData) in H. simpl in H.
  symmetry in H. now apply amd_userdata_not_empty in H.
Qed.

(** X8.  In every [start], a creation request is either the ARM helper's,
    whose boot script is empty, or the primary instance's, whose boot script
    starts with the line [#!/bin/bash] and contains the command that
    registers an ephemeral, unattended runner at the configured repository
    with the fetched token (as [str()] renders it) and the label; the two
    requests never coincide. *)
Theorem start_boot_scripts (w : world) (cfg : config) (req : run_instances_request) :
  configured w cfg ->
  action cfg = "start" ->
  In req (creations (trace w)) ->
  (req = arm_request cfg w /\ UserData req = EmptyString)
  \/ (exists token,
         fetch_gives cfg w token
         /\ req <> arm_request cfg w
         /\ Py.startswith ("#!/bin/bash" +:+ Py.nl) (UserData req) = true
         /\ Py.Contains (UserData req)
              (config_command cfg (py_str token) (label_of w))).
Proof.
  intros Hc Ha. unfold trace.
  destruct (run_dispatch_cases _ _ Hc) as [(e & _ & ->)|[_ ->]];
    [intros []|].
  rewrite (dispatch_start _ _ Ha).
  assert (forall token fragment,
             fetch_gives cfg w token ->
             exists token',
               fetch_gives cfg w token'
               /\ amd_request cfg w token fragment <> arm_request cfg w
               /\ Py.startswith ("#!/bin/bash" +:+ Py.nl)
                    (UserData (amd_request cfg w token fragment)) = true
               /\ Py.Contains (UserData (amd_request cfg w token fragment))
                    (config_command cfg (py_str token') (label_of w))) as Hamd.
  { intros token fragment G. exists token. split; [exact G|].
    split; [intros E; symmetry in E; revert E; apply arm_request_not_amd_request|].
    split; [apply amd_userdata_shebang | apply amd_userdata_command]. }
  destruct (start_cases cfg w)
    as [F|[(token & G & Hm)|[(token & e & G & Hm & R)|[(token & G & Hm & R)
        |(token & i & rest & G & Hm & R)]]]].
  - rewrite (start_fetch_fails _ _ F). intros [].
  - rewrite (start_plain _ _ _ G Hm). intros [<-|[]]. right. now apply Hamd.
  - rewrite (start_buildx_arm_raises _ _ _ _ G Hm R). intros [<-|[]]. now left.
  - rewrite (start_buildx_arm_empty _ _ _ G Hm R). intros [<-|[]]. now left.
  - rewrite (start_buildx_arm_ok _ _ _ _ _ G Hm R). intros [<-|[<-|[]]].
    + now left.
    + right. now apply Hamd.
Qed.

Lemma start_boot_scripts_witness :
  (amd_request (cfg0 "start" "single") world_null_token (PyOther "None")
     EmptyString
   = arm_request (cfg0 "start" "single") world_null_token
   /\ UserData
        (amd_request (cfg0 "start" "single") world_null_token (PyOther "None")
           EmptyString) = EmptyString)
  \/ (exists token,
         fetch_gives (cfg0 "start" "single") world_null_token token
         /\ amd_request (cfg0 "start" "single") world_null_token
              (PyOther "None") EmptyString
            <> arm_request (cfg0 "start" "single") world_null_token
         /\ Py.startswith ("#!/bin/bash" +:+ Py.nl)
              (UserData
                 (amd_request (cfg0 "start" "single") world_null_token
                    (PyOther "None") EmptyString)) = true
         /\ Py.Contains
              (UserData
                 (amd_request (cfg0 "start" "single") world_null_token
                    (PyOther "None") EmptyString))
              (config_command (cfg0 "start" "single") (py_str token)
                 (label_of world_null_token))).
Proof.
  apply (start_boot_scripts world_null_token (cfg0 "start" "single")).
  - vm_compute. reflexivity.
  - reflexivity.
  - vm_compute. left. reflexivity.
Defined.

Example null_token_in_boot_script :
  Py.py_in " --token None --labels 6fa459ea --ephemeral --unattended"
    (UserData
       (amd_request (cfg0 "start" "single") world_null_token (PyOther "None")
          EmptyString)) = true.
Proof. vm_compute. reflexivity. Qed.

(** ** Launches that fail *)

Lemma EvRunInstances_inj (a b : run_instances_request) :
  EvRunInstances a = EvRunInstances b -> a = b.
Proof. intros H. now injection H. Qed.

(** Once the request of the primary instance is in the trace of a [start],
    the answer to it decides how the script ends; the label has been
    emitted, and nothing is ever terminated. *)
Lemma start_amd_issued (cfg : config) (w : world) (token : pyobj)
    (fragment : string) :
  In (EvRunInstances (amd_request cfg w token fragment)) (fst (start cfg w [])) ->
  snd (start cfg w []) = created w (amd_request cfg w token fragment)
  /\ In (EvPrint (label_output (label_of w))) (fst (start cfg w []))
  /\ (mode cfg = "buildx" ->
      creations (fst (start cfg w []))
      = [arm_request cfg w; amd_request cfg w token fragment]).
Proof.
  destruct (start_cases cfg w)
    as [F|[(token' & G & Hm)|[(token' & e & G & Hm & R)|[(token' & G & Hm & R)
        |(token' & i & rest & G & Hm & R)]]]].
  - rewrite (start_fetch_fails _ _ F). simpl.
    intros [H|[H|[]]]; discriminate H.
  - rewrite (start_plain _ _ _ G Hm). simpl.
    intros [H|[H|[H|[H|[]]]]]; try discriminate H.
    apply EvRunInstances_inj in H. rewrite H.
    split; [reflexivity|]. split; [tauto|].
    intros Hb. congruence.
  - rewrite (start_buildx_arm_raises _ _ _ _ G Hm R). simpl.
    intros [H|[H|[H|[]]]]; discriminate H.
  - rewrite (start_buildx_arm_empty _ _ _ G Hm R). simpl.
    intros [H|[H|[H|[]]]]; discriminate H.
  - rewrite (start_buildx_arm_ok _ _ _ _ _ G Hm R). simpl.
    intros [H|[H|[H|[H|[H|[H|[H|[H|[]]]]]]]]]; try discriminate H.
    apply EvRunInstances_inj in H. rewrite H.
    split; [reflexivity|]. split; [tauto|].
    intros _. reflexivity.
Qed.

Lemma start_terminations (cfg : config) (w : world) :
  terminations (fst (start cfg w [])) = []
  /\ describes (fst (start cfg w [])) = []
  /\ length (creations (fst (start cfg w []))) <= 2
  /\ posts (fst (start cfg w [])) = [regtoken_url cfg].
Proof.
  destruct (start_cases cfg w)
    as [F|[(token' & G & Hm)|[(token' & e & G & Hm & R)|[(token' & G & Hm & R)
        |(token' & i & rest & G & Hm & R)]]]].
  - rewrite (start_fetch_fails _ _ F). simpl. repeat split; lia.
  - rewrite (start_plain _ _ _ G Hm). simpl. repeat split; lia.
  - rewrite (start_buildx_arm_raises _ _ _ _ G Hm R). simpl. repeat split; lia.
  - rewrite (start_buildx_arm_empty _ _ _ G Hm R). simpl. repeat split; lia.
  - rewrite (start_buildx_arm_ok _ _ _ _ _ G Hm R). simpl. repeat split; lia.
Qed.

(** X9.  When the provider refuses the launch of the primary instance,
    the error propagates out of the [start]; by then the label has been
    emitted, and the ARM helper launched before it in "buildx" mode is left
    as it is: no termination call is made. *)
Theorem start_amd_failure (w : world) (cfg : config) (token : pyobj)
    (fragment : string) (e : exn) :
  configured w cfg ->
  action cfg = "start" ->
  In (EvRunInstances (amd_request cfg w token fragment)) (trace w) ->
  ec2_run_instances w (amd_request cfg w token fragment) = inl e ->
  result w = Raised e
  /\ In (EvPrint (label_output (label_of w))) (trace w)
  /\ terminations (trace w) = []
  /\ (mode cfg = "buildx" ->
      creations (trace w)
      = [arm_request cfg w; amd_request cfg w token fragment]).
Proof.
  intros Hc Ha. unfold trace, result.
  destruct (run_dispatch_cases _ _ Hc) as [(e' & _ & ->)|[_ ->]];
    [intros []|].
  rewrite (dispatch_start _ _ Ha).
  intros Hi He. destruct (start_amd_issued _ _ _ _ Hi) as (R & L & C).
  split; [rewrite R; unfold created; now rewrite He|].
  split; [exact L|]. split; [apply start_terminations | exact C].
Qed.

Lemma start_amd_failure_witness :
  result world_amd_refused = Raised capacity_error
  /\ In (EvPrint (label_output (label_of world_amd_refused)))
       (trace world_amd_refused)
  /\ terminations (trace world_amd_refused) = []
  /\ (mode (cfg0 "start" "buildx") = "buildx" ->
      creations (trace world_amd_refused)
      = [arm_request (cfg0 "start" "buildx") world_amd_refused;
         amd_request (cfg0 "start" "buildx") world_amd_refused
           (PyStr "REGTOKEN") (buildx_userdata "10.0.0.7")]).
Proof.
  apply (start_amd_failure world_amd_refused (cfg0 "start" "buildx")
           (PyStr "REGTOKEN") (buildx_userdata "10.0.0.7") capacity_error).
  - vm_compute. reflexivity.
  - reflexivity.
  - vm_compute. do 7 right. left. reflexivity.
  - vm_compute. reflexivity.
Defined.

(** X10.  When, past the start-up (the variables read, the client
    built) and the token fetch, in "buildx" mode, the launch of the ARM helper is refused
    or reports no instance, the [start] stops there: the error (an
    [IndexError] in the second case) propagates, the primary instance is
    never requested, the label is never emitted and the script does not
    sleep. *)
Theorem start_arm_failure (w : world) (cfg : config) (token : pyobj) (e : exn) :
  configured w cfg ->
  client_ready w cfg ->
  action cfg = "start" ->
  mode cfg = "buildx" ->
  fetch_gives cfg w token ->
  ec2_run_instances w (arm_request cfg w) = inl e
  \/ (ec2_run_instances w (arm_request cfg w) = inr {| Instances := [] |}
      /\ e = OtherError "IndexError" "list index out of range") ->
  result w = Raised e
  /\ creations (trace w) = [arm_request cfg w]
  /\ prints (trace w)
     = [PStr ("Creating instances with tag " +:+ label_of w)]
  /\ sleeps (trace w) = [].
Proof.
  intros Hc Hcl Ha Hm G H. unfold trace, result.
  rewrite (run_configured _ _ Hc Hcl), (dispatch_start _ _ Ha).
  destruct H as [R|[R ->]].
  - rewrite (start_buildx_arm_raises _ _ _ _ G Hm R). repeat split.
  - rewrite (start_buildx_arm_empty _ _ _ G Hm R). repeat split.
Qed.

Lemma start_arm_failure_witness :
  result world_launch_refused = Raised capacity_error
  /\ creations (trace world_launch_refused)
     = [arm_request (cfg0 "start" "buildx") world_launch_refused]
  /\ prints (trace world_launch_refused)
     = [PStr ("Creating instances with tag " +:+ label_of world_launch_refused)]
  /\ sleeps (trace world_launch_refused) = [].
Proof.
  apply (start_arm_failure world_launch_refused (cfg0 "start" "buildx")
           (PyStr "REGTOKEN") capacity_error).
  - vm_compute. reflexivity.
  - reflexivity.
  - reflexivity.
  - reflexivity.
  - vm_compute. reflexivity.
  - left. reflexivity.
Defined.

(** X11.  A [start] ends normally exactly when the request of the primary
    instance has been issued and the provider has answered it. *)
Theorem start_returns_iff (w : world) (cfg : config) :
  configured w cfg ->
  action cfg = "start" ->
  result w = Returned tt
  <-> exists token fragment r,
        In (EvRunInstances (amd_request cfg w token fragment)) (trace w)
        /\ ec2_run_instances w (amd_request cfg w token fragment) = inr r.
Proof.
  intros Hc Ha. unfold trace, result.
  destruct (run_dispatch_cases _ _ Hc) as [(e' & _ & ->)|[_ ->]].
  { split; [discriminate | now intros (token & fragment & r & [] & _)]. }
  rewrite (dispatch_start _ _ Ha). split.
  - destruct (start_cases cfg w)
      as [F|[(token & G & Hm)|[(token & e & G & Hm & R)|[(token & G & Hm & R)
          |(token & i & rest & G & Hm & R)]]]].
    + rewrite (start_fetch_fails _ _ F). discriminate.
    + rewrite (start_plain _ _ _ G Hm). unfold created. simpl.
      destruct (ec2_run_instances w (amd_request cfg w token EmptyString))
        as [e|r] eqn:E; [discriminate|].
      intros _. exists token, EmptyString, r. split; [tauto | exact E].
    + rewrite (start_buildx_arm_raises _ _ _ _ G Hm R). discriminate.
    + rewrite (start_buildx_arm_empty _ _ _ G Hm R). discriminate.
    + rewrite (start_buildx_arm_ok _ _ _ _ _ G Hm R). unfold created. simpl.
      destruct (ec2_run_instances w
                  (amd_request cfg w token (buildx_userdata (PrivateIpAddress i))))
        as [e|r] eqn:E; [discriminate|].
      intros _. exists token, (buildx_userdata (PrivateIpAddress i)), r.
      split; [tauto | exact E].
  - intros (token & fragment & r & Hi & E).
    destruct (start_amd_issued _ _ _ _ Hi) as (R & _).
    rewrite R. unfold created. now rewrite E.
Qed.

Lemma start_returns_iff_witness :
  result world_amd_refused = Returned tt
  <-> exists token fragment r,
        In (EvRunInstances
              (amd_request (cfg0 "start" "buildx") world_amd_refused token fragment))
           (trace world_amd_refused)
        /\ ec2_run_instances world_amd_refused
             (amd_request (cfg0 "start" "buildx") world_amd_refused token fragment)
           = inr r.
Proof.
  apply (start_returns_iff world_amd_refused (cfg0 "start" "buildx")).
  - vm_compute. reflexivity.
  - reflexivity.
Defined.

(** ** The lookup and the ways a [stop] ends *)

Lemma in_flat_ids (rs : list reservation) (id : string) :
  In id (flat_map (fun reservation => map InstanceId (Instances reservation)) rs)
  <-> exists reservation instance,
        In reservation rs /\ In instance (Instances reservation)
        /\ InstanceId instance = id.
Proof.
  rewrite in_flat_map. split.
  - intros (reservation & Hr & Hi). apply in_map_iff in Hi as (instance & E & Hi).
    now exists reservation, instance.
  - intros (reservation & instance & Hr & Hi & E). exists reservation.
    split; [exact Hr|]. apply in_map_iff. now exists instance.
Qed.

Lemma length_flat_ids (rs : list reservation) :
  length (flat_map (fun reservation => map InstanceId (Instances reservation)) rs)
  = list_sum (map (fun reservation => length (Instances reservation)) rs).
Proof.
  induction rs as [|r rs IH]; simpl; [reflexivity|].
  now rewrite length_app, length_map, IH.
Qed.

(** X12.  [get_instances_from_tag] sends one lookup, filtered on the tag
    [Name] having the given value, and returns the IDs of all the instances
    of all the reservations of the answer, in the order of the answer: an ID
    is returned exactly when an instance of a reservation has it, and there
    are as many IDs as instances (none when nothing matches).  An error of
    the lookup is raised to the caller. *)
Theorem get_instances_from_tag_result (w : world) (tag : string) (t : list event) :
  let lookup := EvDescribeInstances [ {| Name := "tag:Name"; Values := [tag] |} ] in
  match ec2_describe_instances w [ {| Name := "tag:Name"; Values := [tag] |} ] with
  | inl e => get_instances_from_tag tag w t = (t ++ [lookup], Raised e)
  | inr r =>
      exists ids,
        get_instances_from_tag tag w t = (t ++ [lookup], Returned ids)
        /\ ids = concat (map (fun reservation =>
                                map InstanceId (Instances reservation))
                           (Reservations r))
        /\ length ids
           = list_sum (map (fun reservation => length (Instances reservation))
                         (Reservations r))
        /\ forall id,
             In id ids
             <-> exists reservation instance,
                   In reservation (Reservations r)
                   /\ In instance (Instances reservation)
                   /\ InstanceId instance = id
  end.
Proof.
  intros lookup. unfold get_instances_from_tag, mbind, M_bind, emit, answer.
  destruct (ec2_describe_instances w _) as [e|r]; [reflexivity|].
  eexists. split; [unfold mret, M_ret; rewrite collect_reservations; reflexivity|].
  simpl. split; [now rewrite flat_map_concat_map|].
  split; [apply length_flat_ids | intros id; apply in_flat_ids].
Qed.

(** The runs of [stop] in a configured world. *)
Lemma stop_cases (w : world) :
  (environ w !! "INPUT_LABEL" = None
   /\ stop w [] = ([], Raised (key_error "INPUT_LABEL")))
  \/ (exists tag e,
         environ w !! "INPUT_LABEL" = Some tag
         /\ ec2_describe_instances w (label_filter tag) = inl e
         /\ stop w [] = ([EvDescribeInstances (label_filter tag)], Raised e))
  \/ (exists tag r,
         environ w !! "INPUT_LABEL" = Some tag
         /\ ec2_describe_instances w (label_filter tag) = inr r
         /\ stop w [] =
            let ids := instance_ids r in
            let prefix := [EvDescribeInstances (label_filter tag);
                           EvPrint (PList ids); EvTerminateInstances ids true] in
            match dry_run_fatal (ec2_terminate_instances w ids true) with
            | Some e => (prefix, Raised e)
            | None =>
                let after :=
                  after_real_call (ec2_terminate_instances w ids false) in
                (prefix ++ EvTerminateInstances ids false :: fst after, snd after)
            end).
Proof.
  destruct (environ w !! "INPUT_LABEL") as [tag|] eqn:L.
  - right. rewrite (stop_with_label _ _ L).
    destruct (ec2_describe_instances w (label_filter tag)) as [e|r] eqn:D.
    + left. exists tag, e. split; [reflexivity|]. split; [exact D|].
      apply (terminate_lookup_raises _ _ _ D).
    + right. exists tag, r. split; [reflexivity|]. split; [exact D|].
      apply (terminate_run _ _ _ D).
  - left. split; [reflexivity|]. apply (stop_without_label _ L).
Qed.

Lemma stop_effects (w : world) :
  creations (fst (stop w [])) = []
  /\ posts (fst (stop w [])) = []
  /\ sleeps (fst (stop w [])) = []
  /\ length (terminations (fst (stop w []))) <= 2
  /\ length (describes (fst (stop w []))) <= 1.
Proof.
  destruct (stop_cases w)
    as [(_ & ->)|[(tag & e & _ & _ & ->)|(tag & r & _ & _ & ->)]].
  - simpl. repeat split; lia.
  - simpl. repeat split; lia.
  - cbv zeta. destruct (dry_run_fatal _).
    + simpl. repeat split; lia.
    + destruct (ec2_terminate_instances w (instance_ids r) false)
        as [[text|code|class text]|[]]; simpl; repeat split; lia.
Qed.

(** X13.  When the lookup of a [stop] past the start-up (the variables read, the client built)
    is refused, the error propagates
    and nothing else happens: no termination call, not even the dry run,
    and nothing printed. *)
Theorem stop_lookup_error_propagates (w : world) (cfg : config) (tag : string)
    (e : exn) :
  configured w cfg ->
  client_ready w cfg ->
  action cfg = "stop" ->
  environ w !! "INPUT_LABEL" = Some tag ->
  ec2_describe_instances w [ {| Name := "tag:Name"; Values := [tag] |} ] = inl e ->
  trace w = [EvDescribeInstances [ {| Name := "tag:Name"; Values := [tag] |} ]]
  /\ result w = Raised e
  /\ terminations (trace w) = []
  /\ prints (trace w) = [].
Proof.
  intros Hc Hcl Ha Hl Hd. unfold trace, result.
  rewrite (run_configured _ _ Hc Hcl), (dispatch_stop _ _ Ha),
    (stop_with_label _ _ Hl), (terminate_lookup_raises _ _ _ Hd).
  repeat split.
Qed.

Lemma stop_lookup_error_propagates_witness :
  trace world_lookup_refused
  = [EvDescribeInstances [ {| Name := "tag:Name"; Values := ["6fa459ea"] |} ]]
  /\ result world_lookup_refused
     = Raised (ClientError "An error occurred (UnauthorizedOperation) when calling the DescribeInstances operation: You are not authorized to perform this operation.")
  /\ terminations (trace world_lookup_refused) = []
  /\ prints (trace world_lookup_refused) = [].
Proof.
  apply (stop_lookup_error_propagates world_lookup_refused
           (cfg0 "stop" "single") "6fa459ea").
  - vm_compute. reflexivity.
  - reflexivity.
  - reflexivity.
  - vm_compute. reflexivity.
  - reflexivity.
Defined.

(** X14.  When the dry run of a [stop] past the start-up (the variables read, the client built)
    passes and the real termination
    call raises a [ClientError], the script prints the text of the error
    instead of the success line and ends normally, with exit status 0. *)
Theorem stop_real_failure_is_printed (w : world) (cfg : config) (tag : string)
    (r : describe_response) (text : string) :
  configured w cfg ->
  client_ready w cfg ->
  action cfg = "stop" ->
  environ w !! "INPUT_LABEL" = Some tag ->
  ec2_describe_instances w (label_filter tag) = inr r ->
  dry_run_fatal (ec2_terminate_instances w (instance_ids r) true) = None ->
  ec2_terminate_instances w (instance_ids r) false = inl (ClientError text) ->
  result w = Returned tt
  /\ exit_status (result w) = 0%Z
  /\ prints (trace w) = [PList (instance_ids r); PStr text]
  /\ terminations (trace w)
     = [(instance_ids r, true); (instance_ids r, false)].
Proof.
  intros Hc Hcl Ha Hl Hd Hf Hr. unfold trace, result.
  rewrite (run_configured _ _ Hc Hcl), (dispatch_stop _ _ Ha),
    (stop_with_label _ _ Hl), (terminate_run _ _ _ Hd), Hf, Hr.
  repeat split.
Qed.

Lemma stop_real_failure_is_printed_witness :
  result world_real_refused = Returned tt
  /\ exit_status (result world_real_refused) = 0%Z
  /\ prints (trace world_real_refused)
     = [PList ["i-0a"; "i-0b"];
        PStr "An error occurred (OperationNotPermitted) when calling the TerminateInstances operation: The instance may not be terminated."]
  /\ terminations (trace world_real_refused)
     = [(["i-0a"; "i-0b"], true); (["i-0a"; "i-0b"], false)].
Proof.
  apply (stop_real_failure_is_printed world_real_refused (cfg0 "stop" "single")
           "6fa459ea"
           {| Reservations :=
                [ {| Instances :=
                       [ {| InstanceId := "i-0a"; PrivateIpAddress := "10.0.0.7" |} ] |};
                  {| Instances :=
                       [ {| InstanceId := "i-0b"; PrivateIpAddress := "10.0.0.8" |} ] |} ] |}).
  - vm_compute. reflexivity.
  - reflexivity.
  - reflexivity.
  - vm_compute. reflexivity.
  - reflexivity.
  - vm_compute. reflexivity.
  - reflexivity.
Defined.

(** X15.  A [stop] past the start-up (the variables read, the client built)
    ends normally exactly when the label is set, the
    lookup answers, the dry run is not fatal and the real termination call
    raises nothing but a [ClientError]. *)
Theorem stop_returns_iff (w : world) (cfg : config) :
  configured w cfg ->
  client_ready w cfg ->
  action cfg = "stop" ->
  result w = Returned tt
  <-> exists tag r,
        environ w !! "INPUT_LABEL" = Some tag
        /\ ec2_describe_instances w (label_filter tag) = inr r
        /\ dry_run_fatal (ec2_terminate_instances w (instance_ids r) true) = None
        /\ forall e,
             ec2_terminate_instances w (instance_ids r) false = inl e ->
             exists text, e = ClientError text.
Proof.
  intros Hc Hcl Ha. unfold result.
  rewrite (run_configured _ _ Hc Hcl), (dispatch_stop _ _ Ha).
  destruct (stop_cases w)
    as [(L & ->)|[(tag & e & L & D & ->)|(tag & r & L & D & ->)]].
  - split; [discriminate|]. intros (tag & r & L' & _). congruence.
  - split; [discriminate|]. intros (tag' & r & L' & D' & _).
    rewrite L in L'. injection L' as <-. congruence.
  - cbv zeta. split.
    + intros H. exists tag, r. split; [exact L|]. split; [exact D|].
      destruct (dry_run_fatal _); [discriminate H|]. split; [reflexivity|].
      intros e E. rewrite E in H. destruct e; [now eexists | discriminate H ..].
    + intros (tag' & r' & L' & D' & F & R).
      rewrite L in L'. injection L' as <-. rewrite D in D'. injection D' as <-.
      rewrite F.
      destruct (ec2_terminate_instances w (instance_ids r) false)
        as [e|[]]; [|reflexivity].
      destruct (R e eq_refl) as [text ->]. reflexivity.
Qed.

Lemma stop_returns_iff_witness :
  result world_real_refused = Returned tt
  <-> exists tag r,
        environ world_real_refused !! "INPUT_LABEL" = Some tag
        /\ ec2_describe_instances world_real_refused (label_filter tag) = inr r
        /\ dry_run_fatal
             (ec2_terminate_instances world_real_refused (instance_ids r) true)
           = None
        /\ forall e,
             ec2_terminate_instances world_real_refused (instance_ids r) false
             = inl e ->
             exists text, e = ClientError text.
Proof.
  apply (stop_returns_iff world_real_refused (cfg0 "stop" "single")).
  - vm_compute. reflexivity.
  - reflexivity.
  - reflexivity.
Defined.

(** X16.  The marker excuses a [ClientError] only: in a [stop] past the start-up (the variables read, the client built),
    any other exception of the dry run, even one whose text contains "DryRunOperation", propagates
    out of the [stop], and the real termination call is not made. *)
Theorem stop_dry_run_other_exception (w : world) (cfg : config) (tag : string)
    (r : describe_response) (class text : string) :
  configured w cfg ->
  client_ready w cfg ->
  action cfg = "stop" ->
  environ w !! "INPUT_LABEL" = Some tag ->
  ec2_describe_instances w (label_filter tag) = inr r ->
  ec2_terminate_instances w (instance_ids r) true = inl (OtherError class text) ->
  result w = Raised (OtherError class text)
  /\ terminations (trace w) = [(instance_ids r, true)].
Proof.
  intros Hc Hcl Ha Hl Hd He. unfold trace, result.
  rewrite (run_configured _ _ Hc Hcl), (dispatch_stop _ _ Ha),
    (stop_with_label _ _ Hl), (terminate_run _ _ _ Hd), He.
  repeat split.
Qed.

Lemma stop_dry_run_other_exception_witness :
  result
    (with_terminate_instances
       (fun _ _ => inl (OtherError "EndpointConnectionError"
                          "Could not connect (DryRunOperation)"))
       (world0 "stop" "single"))
  = Raised (OtherError "EndpointConnectionError"
              "Could not connect (DryRunOperation)")
  /\ terminations
       (trace
          (with_terminate_instances
             (fun _ _ => inl (OtherError "EndpointConnectionError"
                                "Could not connect (DryRunOperation)"))
             (world0 "stop" "single")))
     = [(instance_ids
           {| Reservations :=
                [ {| Instances :=
                       [ {| InstanceId := "i-0a"; PrivateIpAddress := "10.0.0.7" |} ] |};
                  {| Instances :=
                       [ {| InstanceId := "i-0b"; PrivateIpAddress := "10.0.0.8" |} ] |} ] |},
         true)].
Proof.
  apply (stop_dry_run_other_exception
           (with_terminate_instances
              (fun _ _ => inl (OtherError "EndpointConnectionError"
                                 "Could not connect (DryRunOperation)"))
              (world0 "stop" "single"))
           (cfg0 "stop" "single") "6fa459ea").
  - vm_compute. reflexivity.
  - reflexivity.
  - reflexivity.
  - vm_compute. reflexivity.
  - reflexivity.
  - reflexivity.
Defined.

(** ** What no invocation does *)

(** X17.  No invocation both launches and terminates: a run that makes the
    REST call or a creation call makes no lookup and no termination call.
    A run makes at most one REST call, two creation calls, one lookup and
    two termination calls. *)
Theorem run_effects_bounded (w : world) :
  ((creations (trace w) = [] /\ posts (trace w) = [])
   \/ (terminations (trace w) = [] /\ describes (trace w) = []))
  /\ length (posts (trace w)) <= 1
  /\ length (creations (trace w)) <= 2
  /\ length (describes (trace w)) <= 1
  /\ length (terminations (trace w)) <= 2.
Proof.
  unfold trace.
  destruct (run_cases w) as [[cfg Hc]|(k & _ & _ & ->)].
  - destruct (run_dispatch_cases _ _ Hc) as [(e & _ & ->)|[_ ->]];
      [simpl; repeat split; try lia; now left|].
    destruct (String.eqb_spec (action cfg) "start") as [Ha|Ha].
    + rewrite (dispatch_start _ _ Ha).
      destruct (start_terminations cfg w) as (T & D & C & P).
      rewrite T, D, P. simpl. repeat split; try lia. now right.
    + destruct (String.eqb_spec (action cfg) "stop") as [Hs|Hs].
      * rewrite (dispatch_stop _ _ Hs).
        destruct (stop_effects w) as (C & P & _ & T & D).
        rewrite C, P. simpl. repeat split; try lia. now left.
      * rewrite (dispatch_other _ _ Ha Hs). simpl. repeat split; try lia.
        now left.
  - simpl. repeat split; try lia. now left.
Qed.

(** ** From [start] to [stop] *)

Lemma stop_describes (w : world) (tag : string) :
  environ w !! "INPUT_LABEL" = Some tag ->
  describes (fst (stop w [])) = [label_filter tag].
Proof.
  intros L.
  destruct (stop_cases w)
    as [(L' & _)|[(tag' & e & L' & _ & ->)|(tag' & r & L' & _ & ->)]];
    rewrite L in L'; [discriminate L'| |]; injection L' as <-.
  - reflexivity.
  - cbv zeta. destruct (dry_run_fatal _); [reflexivity|].
    destruct (ec2_terminate_instances w (instance_ids r) false)
      as [[text|code|class text]|[]]; reflexivity.
Qed.

(** The only line of a [start] that has the form of the label output
    carries the generated label. *)
Lemma start_label_output (cfg : config) (w : world) (label : string) :
  In (EvPrint (label_output label)) (fst (start cfg w [])) ->
  label = label_of w /\ creations (fst (start cfg w [])) <> [].
Proof.
  assert (forall l, EvPrint (label_output l) = EvPrint (label_output label) ->
                    label = l) as Hinj.
  { unfold label_output. intros l H. injection H as H.
    now apply String.app_inj in H. }
  assert (announced w <> EvPrint (label_output label)) as Hann.
  { unfold announced. rewrite append_cons. now apply not_label_output. }
  assert (forall s, EvPrint (PStr (String "S" s)) = EvPrint (label_output label)
                    -> False) as Hs.
  { intros s. now apply not_label_output. }
  destruct (start_cases cfg w)
    as [F|[(token & G & Hm)|[(token & e & G & Hm & R)|[(token & G & Hm & R)
        |(token & i & rest & G & Hm & R)]]]].
  - rewrite (start_fetch_fails _ _ F). simpl.
    intros [H|[H|[]]]; discriminate H.
  - rewrite (start_plain _ _ _ G Hm). simpl.
    intros [H|[H|[H|[H|[]]]]]; try discriminate H;
      try (now apply Hann in H).
    split; [now apply Hinj | discriminate].
  - rewrite (start_buildx_arm_raises _ _ _ _ G Hm R). simpl.
    intros [H|[H|[H|[]]]]; try discriminate H; try (now apply Hann in H).
  - rewrite (start_buildx_arm_empty _ _ _ G Hm R). simpl.
    intros [H|[H|[H|[]]]]; try discriminate H; try (now apply Hann in H).
  - rewrite (start_buildx_arm_ok _ _ _ _ _ G Hm R). simpl.
    intros [H|[H|[H|[H|[H|[H|[H|[H|[]]]]]]]]]; try discriminate H;
      try (now apply Hann in H);
      try (exfalso; rewrite append_cons in H; now apply Hs in H).
    split; [now apply Hinj | discriminate].
Qed.

Lemma start_name_tags (cfg : config) (w : world) (req : run_instances_request) :
  In req (creations (fst (start cfg w []))) -> name_tags req = [label_of w].
Proof.
  destruct (start_cases cfg w)
    as [F|[(token & G & Hm)|[(token & e & G & Hm & R)|[(token & G & Hm & R)
        |(token & i & rest & G & Hm & R)]]]].
  - rewrite (start_fetch_fails _ _ F). intros [].
  - rewrite (start_plain _ _ _ G Hm). now intros [<-|[]].
  - rewrite (start_buildx_arm_raises _ _ _ _ G Hm R). now intros [<-|[]].
  - rewrite (start_buildx_arm_empty _ _ _ G Hm R). now intros [<-|[]].
  - rewrite (start_buildx_arm_ok _ _ _ _ _ G Hm R). now intros [<-|[<-|[]]].
Qed.

(** X18.  The label a pipeline reads from the output line of a [start]
    and hands as [INPUT_LABEL] to a later [stop] (one that passes its start-up:
    variables read, client built) selects what the [start]
    requested: every creation request of the [start] (there is at least
    one) carries that label as its only [Name] tag, and the one lookup of the
    [stop] filters on the tag [Name] having exactly that value. *)
Theorem label_round_trip (w1 w2 : world) (cfg1 cfg2 : config) (label : string) :
  configured w1 cfg1 ->
  action cfg1 = "start" ->
  In (EvPrint (PStr ("::set-output name=label::" +:+ label))) (trace w1) ->
  configured w2 cfg2 ->
  client_ready w2 cfg2 ->
  action cfg2 = "stop" ->
  environ w2 !! "INPUT_LABEL" = Some label ->
  creations (trace w1) <> []
  /\ (forall req, In req (creations (trace w1)) -> name_tags req = [label])
  /\ describes (trace w2) = [[ {| Name := "tag:Name"; Values := [label] |} ]].
Proof.
  intros Hc1 Ha1 Hp Hc2 Hcl2 Ha2 Hl. unfold trace in *.
  rewrite (run_configured _ _ Hc2 Hcl2), (dispatch_stop _ _ Ha2).
  destruct (run_dispatch_cases _ _ Hc1) as [(e & _ & E)|[_ E]];
    rewrite E in *; [destruct Hp|].
  rewrite (dispatch_start _ _ Ha1) in *.
  destruct (start_label_output _ _ _ Hp) as [-> Hne].
  split; [exact Hne|]. split; [apply start_name_tags|].
  apply (stop_describes _ _ Hl).
Qed.

Lemma label_round_trip_witness :
  creations (trace (world0 "start" "buildx")) <> []
  /\ (forall req, In req (creations (trace (world0 "start" "buildx"))) ->
                  name_tags req = ["6fa459ea"])
  /\ describes (trace (world0 "stop" "buildx"))
     = [[ {| Name := "tag:Name"; Values := ["6fa459ea"] |} ]].
Proof.
  apply (label_round_trip (world0 "start" "buildx") (world0 "stop" "buildx")
           (cfg0 "start" "buildx") (cfg0 "stop" "buildx") "6fa459ea").
  - vm_compute. reflexivity.
  - reflexivity.
  - vm_compute. do 6 right. left. reflexivity.
  - vm_compute. reflexivity.
  - reflexivity.
  - reflexivity.
  - vm_compute. reflexivity.
Defined.

(** ** The pause *)

Ltac cut_sleep H :=
  repeat
    (apply cut_cons in H as [(-> & ? & <-)|(? & -> & H)];
     [ match goal with E : _ = EvSleep _ |- _ => try discriminate E end | ]);
  try (now apply cut_nil in H).

(** X19.  A [start] sleeps only in "buildx" mode, once and for 20
    seconds: wherever a pause stands in the trace, it lasts 20 seconds, the
    request of the ARM helper is the only creation call before it, the
    request of the primary instance the only one after it, and there is no
    other pause. *)
Theorem start_sleeps_between_launches (w : world) (cfg : config)
    (pre post : list event) (seconds : Z) :
  configured w cfg ->
  action cfg = "start" ->
  trace w = pre ++ EvSleep seconds :: post ->
  seconds = 20%Z
  /\ mode cfg = "buildx"
  /\ creations pre = [arm_request cfg w]
  /\ (exists token fragment,
         creations post = [amd_request cfg w token fragment])
  /\ sleeps pre = [] /\ sleeps post = [].
Proof.
  intros Hc Ha. unfold trace.
  destruct (run_dispatch_cases _ _ Hc) as [(e & _ & ->)|[_ ->]];
    [simpl; intros H; now apply cut_nil in H|].
  rewrite (dispatch_start _ _ Ha).
  destruct (start_cases cfg w)
    as [F|[(token & G & Hm)|[(token & e & G & Hm & R)|[(token & G & Hm & R)
        |(token & i & rest & G & Hm & R)]]]].
  - rewrite (start_fetch_fails _ _ F). simpl. intros H. cut_sleep H.
  - rewrite (start_plain _ _ _ G Hm). simpl. intros H. cut_sleep H.
  - rewrite (start_buildx_arm_raises _ _ _ _ G Hm R). simpl. intros H.
    cut_sleep H.
  - rewrite (start_buildx_arm_empty _ _ _ G Hm R). simpl. intros H.
    cut_sleep H.
  - rewrite (start_buildx_arm_ok _ _ _ _ _ G Hm R). simpl. intros H.
    cut_sleep H.
    match goal with E : EvSleep _ = EvSleep _ |- _ => injection E as <- end.
    simpl. repeat split; eauto.
Qed.

Lemma start_sleeps_between_launches_witness :
  20%Z = 20%Z
  /\ mode (cfg0 "start" "buildx") = "buildx"
  /\ creations
       [posted (cfg0 "start" "buildx"); announced (world0 "start" "buildx");
        EvRunInstances (arm_request (cfg0 "start" "buildx") (world0 "start" "buildx"));
        EvPrint (PStr "Started ARM instance i-0a at 10.0.0.7");
        EvPrint (PStr "Sleeping for 20s so i-0a will be ready")]
     = [arm_request (cfg0 "start" "buildx") (world0 "start" "buildx")]
  /\ (exists token fragment,
         creations
           [EvPrint (label_output "6fa459ea");
            EvRunInstances
              (amd_request (cfg0 "start" "buildx") (world0 "start" "buildx")
                 (PyStr "REGTOKEN") (buildx_userdata "10.0.0.7"))]
         = [amd_request (cfg0 "start" "buildx") (world0 "start" "buildx")
              token fragment])
  /\ sleeps
       [posted (cfg0 "start" "buildx"); announced (world0 "start" "buildx");
        EvRunInstances (arm_request (cfg0 "start" "buildx") (world0 "start" "buildx"));
        EvPrint (PStr "Started ARM instance i-0a at 10.0.0.7");
        EvPrint (PStr "Sleeping for 20s so i-0a will be ready")] = []
  /\ sleeps
       [EvPrint (label_output "6fa459ea");
        EvRunInstances
          (amd_request (cfg0 "start" "buildx") (world0 "start" "buildx")
             (PyStr "REGTOKEN") (buildx_userdata "10.0.0.7"))] = [].
Proof.
  apply (start_sleeps_between_launches (world0 "start" "buildx")
           (cfg0 "start" "buildx")).
  - vm_compute. reflexivity.
  - reflexivity.
  - vm_compute. reflexivity.
Defined.

(** ** Every creation request of the script *)

(** X20.  Whatever the action and the answers, every creation request the
    script sends asks for exactly one instance, of the configured ARM image
    and size or of the configured AMD image and size, in the configured
    subnet and security group, with the 30 GB volume deleted on termination
    and monitoring disabled. *)
Theorem every_creation_is_single (w : world) (cfg : config)
    (req : run_instances_request) :
  configured w cfg ->
  In req (creations (trace w)) ->
  MinCount req = 1%Z /\ MaxCount req = 1%Z
  /\ ((ImageId req = arm_ami cfg /\ InstanceType req = arm_instancetype cfg)
      \/ (ImageId req = amd_ami cfg /\ InstanceType req = amd_instancetype cfg))
  /\ SubnetId req = subnet cfg
  /\ SecurityGroupIds req = [securitygroup cfg]
  /\ BlockDeviceMappings req
     = [ {| DeviceName := "/dev/xvda";
            Ebs := {| DeleteOnTermination := true; VolumeSize := 30;
                      VolumeType := "gp2" |} |} ]
  /\ MonitoringEnabled req = false.
Proof.
  intros Hc. unfold trace.
  destruct (run_dispatch_cases _ _ Hc) as [(e & _ & ->)|[_ ->]]; [intros []|].
  destruct (String.eqb_spec (action cfg) "start") as [Ha|Ha].
  - rewrite (dispatch_start _ _ Ha).
    destruct (start_cases cfg w)
      as [F|[(token & G & Hm)|[(token & e & G & Hm & R)|[(token & G & Hm & R)
          |(token & i & rest & G & Hm & R)]]]].
    + rewrite (start_fetch_fails _ _ F). intros [].
    + rewrite (start_plain _ _ _ G Hm). intros [<-|[]]. simpl. tauto.
    + rewrite (start_buildx_arm_raises _ _ _ _ G Hm R). intros [<-|[]].
      simpl. tauto.
    + rewrite (start_buildx_arm_empty _ _ _ G Hm R). intros [<-|[]].
      simpl. tauto.
    + rewrite (start_buildx_arm_ok _ _ _ _ _ G Hm R).
      intros [<-|[<-|[]]]; simpl; tauto.
  - destruct (String.eqb_spec (action cfg) "stop") as [Hs|Hs].
    + rewrite (dispatch_stop _ _ Hs).
      destruct (stop_effects w) as (C & _). rewrite C. intros [].
    + rewrite (dispatch_other _ _ Ha Hs). intros [].
Qed.

Lemma every_creation_is_single_witness :
  MinCount (arm_request (cfg0 "start" "buildx") (world0 "start" "buildx")) = 1%Z
  /\ MaxCount (arm_request (cfg0 "start" "buildx") (world0 "start" "buildx")) = 1%Z
  /\ ((ImageId (arm_request (cfg0 "start" "buildx") (world0 "start" "buildx"))
       = arm_ami (cfg0 "start" "buildx")
       /\ InstanceType (arm_request (cfg0 "start" "buildx") (world0 "start" "buildx"))
          = arm_instancetype (cfg0 "start" "buildx"))
      \/ (ImageId (arm_request (cfg0 "start" "buildx") (world0 "start" "buildx"))
          = amd_ami (cfg0 "start" "buildx")
          /\ InstanceType (arm_request (cfg0 "start" "buildx") (world0 "start" "buildx"))
             = amd_instancetype (cfg0 "start" "buildx")))
  /\ SubnetId (arm_request (cfg0 "start" "buildx") (world0 "start" "buildx"))
     = subnet (cfg0 "start" "buildx")
  /\ SecurityGroupIds (arm_request (cfg0 "start" "buildx") (world0 "start" "buildx"))
     = [securitygroup (cfg0 "start" "buildx")]
  /\ BlockDeviceMappings (arm_request (cfg0 "start" "buildx") (world0 "start" "buildx"))
     = [ {| DeviceName := "/dev/xvda";
            Ebs := {| DeleteOnTermination := true; VolumeSize := 30;
                      VolumeType := "gp2" |} |} ]
  /\ MonitoringEnabled (arm_request (cfg0 "start" "buildx") (world0 "start" "buildx"))
     = false.
Proof.
  apply (every_creation_is_single (world0 "start" "buildx") (cfg0 "start" "buildx")).
  - vm_compute. reflexivity.
  - vm_compute. left. reflexivity.
Defined.
